(** * Dairy management: rate lookup, advances, late milk entries, dates

    A shallow embedding of the bookkeeping core of the two applications
    [DMS.py] (v6.0) and [ganesh_dairy_pro_v_5_5.py] (v5.5):

    - Python's floats are the kernel's binary64 floats; [round] with and
      without digits is written out on the exact value of the float;
    - the SQLite database is a record of tables, each a list of rows in
      rowid order; a REAL column holds a double or NULL;
    - a function that opens a connection and runs statements takes the
      database and, when it writes, returns the new one;
    - a Python exception is an [exn] in a small error monad. *)

From Stdlib Require Import ZArith List String Ascii Bool Lia Floats.
From Stdlib Require Import Sorting.Sorted Sorting.Permutation.
Import ListNotations.

Set Implicit Arguments.
Open Scope Z_scope.

(** ** Python builtins *)

Module Py.

Inductive exn : Set :=
| ValueError
| OverflowError
| TypeError.

Inductive result (A : Type) : Type :=
| Ok (a : A)
| Raise (e : exn).

Arguments Ok {A} a.
Arguments Raise {A} e.

Definition bind {A B : Type} (r : result A) (k : A -> result B) : result B :=
  match r with
  | Ok a => k a
  | Raise e => Raise e
  end.

Definition raises {A : Type} (r : result A) : bool :=
  match r with
  | Ok _ => false
  | Raise _ => true
  end.

(** The argument of a numeric parameter as [float(...)] sees it: a value
    it converts to a double (a float, an int, a numeric string, also the
    strings nan and inf), or one on which it raises. *)
Inductive numarg : Set :=
| Num (f : float)
| NotNumeric.

Definition float_of (a : numarg) : result float :=
  match a with
  | Num f => Ok f
  | NotNumeric => Raise ValueError
  end.

(** [a / d] rounded to the nearest integer, ties to the even one
    ([0 <= a], [0 < d]). *)
Definition rhe_div (a d : Z) : Z :=
  let q := a / d in
  let r := a mod d in
  match 2 * r ?= d with
  | Lt => q
  | Gt => q + 1
  | Eq => if Z.even q then q else q + 1
  end.

(** The integer nearest to [k * m * 2^e], ties to even. *)
Definition scaled_round (k : Z) (m : positive) (e : Z) : Z :=
  if 0 <=? e then k * Zpos m * 2 ^ e else rhe_div (k * Zpos m) (2 ^ (- e)).

(** [round(x)]: the nearest int, ties to even; ValueError on a NaN,
    OverflowError on an infinity. *)
Definition round_int (x : float) : result Z :=
  match Prim2SF x with
  | S754_nan => Raise ValueError
  | S754_infinity _ => Raise OverflowError
  | S754_zero _ => Ok 0
  | S754_finite s m e => Ok (cond_Zopp s (scaled_round 1 m e))
  end.

(** An int used where a float is expected ([n / 10.0]): the nearest
    double, OverflowError past the largest one. *)
Definition int_to_float (n : Z) : result float :=
  let f := SF2Prim (binary_normalize prec emax n 0 false) in
  if is_infinity f then Raise OverflowError else Ok f.

Definition two46 : float := Eval vm_compute in Z.ldexp one 46.

(** [round(x, 2)]: the double nearest to the two-decimal number nearest
    to [x] (ties to even on the exact value of [x]). A NaN, an infinity
    and a zero round to themselves; from [2^46] on the spacing of the
    doubles exceeds [0.01] and [x] is its own rounding; below, the count
    of hundredths is under [2^53] and the division is exact up to its
    one rounding. *)
Definition round2 (x : float) : float :=
  match Prim2SF x with
  | S754_finite s m e =>
      if (two46 <=? abs x)%float then x
      else
        let q := (of_uint63 (Uint63.of_Z (scaled_round 100 m e)) / 100)%float in
        if s then (- q)%float else q
  | _ => x
  end.

(** [max(a, b)] on two floats: [b] only when [b > a]. *)
Definition max (a b : float) : float :=
  if (a <? b)%float then b else a.

(** Characters that [str.strip()] removes (ASCII). *)
Definition isspace (c : ascii) : bool :=
  let n := N_of_ascii c in
  ((9 <=? n) && (n <=? 13) || (28 <=? n) && (n <=? 32))%N.

Fixpoint lstrip (s : string) : string :=
  match s with
  | String c r => if isspace c then lstrip r else s
  | EmptyString => EmptyString
  end.

Fixpoint rstrip (s : string) : string :=
  match s with
  | String c r =>
      match rstrip r with
      | EmptyString => if isspace c then EmptyString else String c EmptyString
      | r' => String c r'
      end
  | EmptyString => EmptyString
  end.

Definition strip (s : string) : string := rstrip (lstrip s).

Definition lower_char (c : ascii) : ascii :=
  let n := N_of_ascii c in
  if ((65 <=? n) && (n <=? 90))%N then ascii_of_N (n + 32) else c.

Fixpoint lower (s : string) : string :=
  match s with
  | String c r => String (lower_char c) (lower r)
  | EmptyString => EmptyString
  end.

Definition startswith (s p : string) : bool := String.prefix p s.

Definition digit_val (c : ascii) : option Z :=
  let n := N_of_ascii c in
  if ((48 <=? n) && (n <=? 57))%N then Some (Z.of_N n - 48) else None.

Definition is_digit (c : ascii) : bool :=
  match digit_val c with
  | Some _ => true
  | None => false
  end.

Fixpoint all_digits (s : string) : bool :=
  match s with
  | String c r => is_digit c && all_digits r
  | EmptyString => true
  end.

(** [str.isdigit()] on ASCII text: non-empty, digits only. *)
Definition isdigit (s : string) : bool :=
  match s with
  | EmptyString => false
  | _ => all_digits s
  end.

Fixpoint int_acc (acc : Z) (s : string) : Z :=
  match s with
  | String c r =>
      match digit_val c with
      | Some d => int_acc (10 * acc + d) r
      | None => acc
      end
  | EmptyString => acc
  end.

(** [int(s)] on a string of digits. *)
Definition int_of (s : string) : Z := int_acc 0 s.

End Py.

Notation "x <- r ;; k" := (Py.bind r (fun x => k))
  (at level 61, r at next level, right associativity).

(** ** Dates: [datetime.strptime] and [strftime] *)

Module Datetime.

Record date : Set := mkdate { year : Z; month : Z; day : Z }.

Record datetime : Set := mkdatetime {
  dt_date : date;
  hour : Z;
  minute : Z;
  second : Z
}.

Definition is_leap (y : Z) : bool :=
  (y mod 4 =? 0) && (negb (y mod 100 =? 0) || (y mod 400 =? 0)).

Definition days_in_month (y m : Z) : Z :=
  if m =? 2 then (if is_leap y then 29 else 28)
  else if (m =? 4) || (m =? 6) || (m =? 9) || (m =? 11) then 30
  else 31.

(** What the [date] constructor accepts: years 1 to 9999, a month, a day
    of that month. *)
Definition valid_date (d : date) : bool :=
  (1 <=? year d) && (year d <=? 9999) &&
  (1 <=? month d) && (month d <=? 12) &&
  (1 <=? day d) && (day d <=? days_in_month (year d) (month d)).

(** The directives the formats of [normalize_date_input] use, and the
    separators between them. *)
Inductive directive : Set :=
| Dd
| Dm
| DY
| Lit (c : ascii).

Definition digit_char (k : Z) : ascii := ascii_of_N (Z.to_N (48 + k)).

Definition two_digits (n : Z) : string :=
  String (digit_char (n / 10 mod 10)) (String (digit_char (n mod 10)) EmptyString).

Definition four_digits (n : Z) : string :=
  String (digit_char (n / 1000 mod 10))
    (String (digit_char (n / 100 mod 10)) (two_digits n)).

(** [strftime]: [%d] and [%m] on two digits, [%Y] on four, zero-filled,
    as the library documents them. *)
Definition strftime_item (d : date) (i : directive) : string :=
  match i with
  | Dd => two_digits (day d)
  | Dm => two_digits (month d)
  | DY => four_digits (year d)
  | Lit c => String c EmptyString
  end.

Fixpoint strftime (d : date) (fmt : list directive) : string :=
  match fmt with
  | [] => EmptyString
  | i :: fmt' => (strftime_item d i ++ strftime d fmt')%string
  end.

(** One alternative of a directive's regular expression: the value it
    reads and the text left, or nothing. *)
Definition digit_in (lo hi : Z) (c : ascii) : option Z :=
  match Py.digit_val c with
  | Some v => if (lo <=? v) && (v <=? hi) then Some v else None
  | None => None
  end.

Definition pair_in (lo1 hi1 lo2 hi2 : Z) (c1 c2 : ascii) : option Z :=
  match digit_in lo1 hi1 c1, digit_in lo2 hi2 c2 with
  | Some a, Some b => Some (10 * a + b)
  | _, _ => None
  end.

Definition space_then (lo hi : Z) (c1 c2 : ascii) : option Z :=
  if Ascii.eqb c1 " " then digit_in lo hi c2 else None.

Definition two_char (p : ascii -> ascii -> option Z) (s : string) : list (Z * string) :=
  match s with
  | String c1 (String c2 r) =>
      match p c1 c2 with
      | Some v => [(v, r)]
      | None => []
      end
  | _ => []
  end.

Definition one_char (p : ascii -> option Z) (s : string) : list (Z * string) :=
  match s with
  | String c r =>
      match p c with
      | Some v => [(v, r)]
      | None => []
      end
  | EmptyString => []
  end.

(** [%d] is [3[0-1]|[1-2]\d|0[1-9]|[1-9]| [1-9]]: the alternatives in the
    order the matcher tries them. *)
Definition cand_d (s : string) : list (Z * string) :=
  two_char (pair_in 3 3 0 1) s ++ two_char (pair_in 1 2 0 9) s ++
  two_char (pair_in 0 0 1 9) s ++ one_char (digit_in 1 9) s ++
  two_char (space_then 1 9) s.

(** [%m] is [1[0-2]|0[1-9]|[1-9]]. *)
Definition cand_m (s : string) : list (Z * string) :=
  two_char (pair_in 1 1 0 2) s ++ two_char (pair_in 0 0 1 9) s ++
  one_char (digit_in 1 9) s.

(** [%Y] is [\d\d\d\d]. *)
Definition cand_Y (s : string) : list (Z * string) :=
  match s with
  | String c1 (String c2 (String c3 (String c4 r))) =>
      match Py.digit_val c1, Py.digit_val c2, Py.digit_val c3, Py.digit_val c4 with
      | Some a, Some b, Some c, Some d => [(1000 * a + 100 * b + 10 * c + d, r)]
      | _, _, _, _ => []
      end
  | _ => []
  end.

Definition set_field (i : directive) (v : Z) (d : date) : date :=
  match i with
  | Dd => mkdate (year d) (month d) v
  | Dm => mkdate (year d) v (day d)
  | DY => mkdate v (month d) (day d)
  | Lit _ => d
  end.

(** The matches of the format's regular expression at the start of [s],
    in backtracking order: the fields read and the text left over. The
    separators of the formats here are not letters, so the matcher's
    case folding does not show. *)
Fixpoint re_match (fmt : list directive) (d : date) (s : string) : list (date * string) :=
  match fmt with
  | [] => [(d, s)]
  | Lit c :: fmt' =>
      match s with
      | String c' r => if Ascii.eqb c c' then re_match fmt' d r else []
      | EmptyString => []
      end
  | Dd :: fmt' =>
      flat_map (fun vr => re_match fmt' (set_field Dd (fst vr) d) (snd vr)) (cand_d s)
  | Dm :: fmt' =>
      flat_map (fun vr => re_match fmt' (set_field Dm (fst vr) d) (snd vr)) (cand_m s)
  | DY :: fmt' =>
      flat_map (fun vr => re_match fmt' (set_field DY (fst vr) d) (snd vr)) (cand_Y s)
  end.

(** [datetime.strptime(s, fmt)]: the first match must use the whole
    string (else: unconverted data remains) and give a date that exists;
    a field the format lacks keeps its default (1900-01-01). *)
Definition strptime (s : string) (fmt : list directive) : Py.result date :=
  match re_match fmt (mkdate 1900 1 1) s with
  | [] => Py.Raise Py.ValueError
  | (d, rest) :: _ =>
      match rest with
      | EmptyString => if valid_date d then Py.Ok d else Py.Raise Py.ValueError
      | String _ _ => Py.Raise Py.ValueError
      end
  end.

Definition fmt_dmy_slash : list directive := [Dd; Lit "/"; Dm; Lit "/"; DY].
Definition fmt_dmy_dash : list directive := [Dd; Lit "-"; Dm; Lit "-"; DY].
Definition fmt_ymd_dash : list directive := [DY; Lit "-"; Dm; Lit "-"; Dd].
Definition fmt_ymd_slash : list directive := [DY; Lit "/"; Dm; Lit "/"; Dd].

End Datetime.

(** ** SQLite values and the statements the code runs *)

Module Sqlite.

(** A REAL column: a double or NULL. SQLite stores no NaN: a NaN bound
    to a parameter, or computed by an expression, is NULL. *)
Definition real : Set := option float.

Definition bind_real (x : float) : real :=
  if is_nan x then None else Some x.

Definition sub (a b : real) : real :=
  match a, b with
  | Some x, Some y => bind_real (x - y)
  | _, _ => None
  end.

Definition abs (a : real) : real := option_map PrimFloat.abs a.

(** [a = b] in a WHERE clause: a comparison with NULL selects nothing. *)
Definition eq (a b : real) : bool :=
  match a, b with
  | Some x, Some y => (x =? y)%float
  | _, _ => false
  end.

(** The ascending order of ORDER BY: NULL before every number. *)
Definition lt (a b : real) : bool :=
  match a, b with
  | None, None => false
  | None, Some _ => true
  | Some _, None => false
  | Some x, Some y => (x <? y)%float
  end.

Fixpoint non_null (vs : list real) : list float :=
  match vs with
  | [] => []
  | Some x :: r => x :: non_null r
  | None :: r => non_null r
  end.

(** [SUM(col)] over REAL values: NULLs are skipped, no value left gives
    NULL, else the doubles are added one after the other from zero (the
    plain accumulation of SQLite up to 3.43). *)
Definition sum (vs : list real) : real :=
  match non_null vs with
  | [] => None
  | xs => bind_real (fold_left PrimFloat.add xs 0%float)
  end.

(** [IFNULL(a, 0)] as Python reads it into a float. *)
Definition ifnull0 (a : real) : float :=
  match a with
  | Some x => x
  | None => 0%float
  end.

(** [ORDER BY key LIMIT 1] then [fetchone]: a row of least key, the
    first such in rowid order; [None] when no row is selected. *)
Definition first_by {A : Type} (key : A -> real) (rows : list A) : option A :=
  match rows with
  | [] => None
  | r :: rs =>
      Some (fold_left (fun best r' => if lt (key r') (key best) then r' else best) rs r)
  end.

Fixpoint insert_int (x : Z) (l : list Z) : list Z :=
  match l with
  | [] => [x]
  | y :: r => if x <=? y then x :: l else y :: insert_int x r
  end.

(** [ORDER BY] on an INTEGER column. *)
Definition order_by_int (l : list Z) : list Z := fold_right insert_int [] l.

End Sqlite.

(** ** The tables (the columns the functions below read or write) *)

Module Db.

Record farmer : Set := mkfarmer {
  farmer_code : Z;
  name : string;
  category : string
}.

Record milk_record : Set := mkmilk {
  mr_farmer_code : Z;
  mr_date : string;
  mr_shift : string;
  mr_litres : Sqlite.real;
  mr_fat : Sqlite.real;
  mr_snf : Sqlite.real;
  mr_rate : Sqlite.real;
  mr_amount : Sqlite.real;
  mr_category : string
}.

Record advance : Set := mkadvance {
  ad_farmer_code : Z;
  ad_date : string;
  ad_reason : string;
  ad_amount : Sqlite.real
}.

Record rate_row : Set := mkrate {
  rt_category : string;
  rt_fat : Sqlite.real;
  rt_snf : Sqlite.real;
  rt_rate : Sqlite.real
}.

Record advance_deduction : Set := mkdeduction {
  dd_farmer_code : Z;
  dd_date : string;
  dd_month : string;
  dd_amount : Sqlite.real;
  dd_note : string
}.

Record db : Set := mkdb {
  farmers : list farmer;
  milk_records : list milk_record;
  advances : list advance;
  rate_table : list rate_row;
  advance_deductions : list advance_deduction
}.

Definition set_milk_records (d : db) (rows : list milk_record) : db :=
  mkdb (farmers d) rows (advances d) (rate_table d) (advance_deductions d).

Definition set_advance_deductions (d : db) (rows : list advance_deduction) : db :=
  mkdb (farmers d) (milk_records d) (advances d) (rate_table d) rows.

(** [round(row['rate'], 2)]: a NULL rate is [None] in Python, on which
    [round] raises. *)
Definition round_rate (row : rate_row) : Py.result float :=
  match rt_rate row with
  | Some x => Py.Ok (Py.round2 x)
  | None => Py.Raise Py.TypeError
  end.

(** [round(x * 10) / 10.0]: the fat slab of a reading. *)
Definition round_tenth (x : float) : Py.result float :=
  n <- Py.round_int (x * 10)%float ;;
  nf <- Py.int_to_float n ;;
  Py.Ok (nf / 10)%float.

(** The rows [WHERE category=? AND fat=?] selects. *)
Definition slab_rows (t : list rate_row) (cat : string) (fat_r : float) : list rate_row :=
  filter (fun r => String.eqb (rt_category r) cat &&
                   Sqlite.eq (rt_fat r) (Sqlite.bind_real fat_r)) t.

(** The rows [WHERE category=?] selects. *)
Definition category_rows (t : list rate_row) (cat : string) : list rate_row :=
  filter (fun r => String.eqb (rt_category r) cat) t.

(** The sort keys [ABS(snf-?)] and [ABS(fat-?)]. *)
Definition snf_distance (snf : float) (r : rate_row) : Sqlite.real :=
  Sqlite.abs (Sqlite.sub (rt_snf r) (Sqlite.bind_real snf)).

Definition fat_distance (fat_r : float) (r : rate_row) : Sqlite.real :=
  Sqlite.abs (Sqlite.sub (rt_fat r) (Sqlite.bind_real fat_r)).

(** The loop of [get_next_farmer_code] over the sorted codes, from [n]. *)
Fixpoint next_code_from (n : Z) (rows : list Z) : Z :=
  match rows with
  | [] => n
  | code :: rest =>
      if code =? n then next_code_from (n + 1) rest
      else if n <? code then n
      else next_code_from n rest
  end.

End Db.

(** ** [DMS.py] *)

Module DMS.

Import Db.

Section Library.

(** [datetime.fromisoformat]: the date of the string, or [None] where it
    raises. What it accepts changes with the Python version; nothing
    below depends on it. *)
Variable fromisoformat : string -> option Datetime.date.

(** SQLite's [strftime('%Y-%m', text)]: NULL on a text it does not read
    as a date. *)
Variable sqlite_strftime_Ym : string -> option string.

Definition fmts : list (list Datetime.directive) :=
  [Datetime.fmt_dmy_slash; Datetime.fmt_dmy_dash;
   Datetime.fmt_ymd_dash; Datetime.fmt_ymd_slash].

(** The loop over [fmts]: the first format that parses wins. *)
Fixpoint try_formats (s : string) (fs : list (list Datetime.directive)) : option string :=
  match fs with
  | [] => None
  | f :: fs' =>
      match Datetime.strptime s f with
      | Py.Ok dt => Some (Datetime.strftime dt Datetime.fmt_ymd_dash)
      | Py.Raise _ => try_formats s fs'
      end
  end.

Definition normalize_date_input (d : string) : Py.result string :=
  match d with
  | EmptyString => Py.Raise Py.ValueError
  | _ =>
      let s := Py.strip d in
      match try_formats s fmts with
      | Some r => Py.Ok r
      | None =>
          match fromisoformat s with
          | Some dt => Py.Ok (Datetime.strftime dt Datetime.fmt_ymd_dash)
          | None => Py.Raise Py.ValueError
          end
      end
  end.

(** [if up_to_month:] is false on [None] and on the empty string. *)
Definition month_given (up_to_month : option string) : option string :=
  match up_to_month with
  | Some EmptyString => None
  | other => other
  end.

Definition get_advance_balance (d : db) (code : Z) (up_to_month : option string) : float :=
  let total_adv :=
    Sqlite.ifnull0 (Sqlite.sum (map ad_amount
      (filter (fun a => ad_farmer_code a =? code) (advances d)))) in
  let selected :=
    match month_given up_to_month with
    | Some m =>
        filter (fun x => (dd_farmer_code x =? code) && String.ltb (dd_month x) m)
          (advance_deductions d)
    | None =>
        filter (fun x => dd_farmer_code x =? code) (advance_deductions d)
    end in
  let total_ded := Sqlite.ifnull0 (Sqlite.sum (map dd_amount selected)) in
  Py.round2 (total_adv - total_ded).

(** The INSERT of the model cannot fail, so the [except] branch that
    returns [False] is never taken. *)
Definition record_advance_deduction (d : db) (today : string) (code : Z)
  (month : string) (amount : float) (note : string) : bool * db :=
  (true,
   set_advance_deductions d
     (advance_deductions d ++
      [mkdeduction code today month (Sqlite.bind_real amount) note])).

Definition get_shift_for_time (now : Datetime.datetime) (dt : option Datetime.datetime) : string :=
  let dt := match dt with Some t => t | None => now end in
  let h := Datetime.hour dt in
  if (6 <=? h) && (h <? 16) then "Morning"%string else "Evening"%string.

Definition get_next_farmer_code (d : db) : Z :=
  next_code_from 1 (Sqlite.order_by_int (map farmer_code (farmers d))).

(** [do_add] of the Add Farmer dialog: the new farmer takes the code
    that [get_next_farmer_code] gave when the dialog opened. *)
Definition add_farmer (d : db) (name category : string) : db :=
  mkdb (farmers d ++ [mkfarmer (get_next_farmer_code d) name category])
    (milk_records d) (advances d) (rate_table d) (advance_deductions d).

(** [delete_farmer], once confirmed: the farmer and every row that
    carries the code. *)
Definition delete_farmer (d : db) (fcode : Z) : db :=
  mkdb (filter (fun f => negb (farmer_code f =? fcode)) (farmers d))
    (filter (fun r => negb (mr_farmer_code r =? fcode)) (milk_records d))
    (filter (fun a => negb (ad_farmer_code a =? fcode)) (advances d))
    (rate_table d)
    (filter (fun x => negb (dd_farmer_code x =? fcode)) (advance_deductions d)).

(** [if not category: category = "Cow"]. *)
Definition default_category (category : string) : string :=
  match category with
  | EmptyString => "Cow"%string
  | _ => category
  end.

(** The last fallback: a line through the base slab of the category. *)
Definition formula_rate (category : string) (fat_val : float) : float :=
  let base :=
    if Py.startswith (Py.lower category) "buf"
    then (5%float, 45%float) else (3%float, 30%float) in
  let rate := (snd base + (fat_val - fst base) * 5)%float in
  Py.round2 (Py.max 0%float rate).

Definition find_rate_for (d : db) (category : string) (fat : Py.numarg) (snf : float) : Py.result float :=
  let category := default_category category in
  let fat_val :=
    match Py.float_of fat with
    | Py.Ok f => f
    | Py.Raise _ => 0%float
    end in
  fat_r <- round_tenth fat_val ;;
  match Sqlite.first_by (snf_distance snf) (slab_rows (rate_table d) category fat_r) with
  | Some row => round_rate row
  | None =>
      match Sqlite.first_by (fat_distance fat_r) (category_rows (rate_table d) category) with
      | Some row => round_rate row
      | None => Py.Ok (formula_rate category fat_val)
      end
  end.

(** The key of the SELECT and of the UPDATE in [record_milk_late]. *)
Definition same_entry (code : Z) (date_db shift category : string) (r : milk_record) : bool :=
  (mr_farmer_code r =? code) && String.eqb (mr_date r) date_db &&
  String.eqb (mr_shift r) shift && String.eqb (mr_category r) category.

Definition update_entry (litres fat snf rate amount : float) (r : milk_record) : milk_record :=
  mkmilk (mr_farmer_code r) (mr_date r) (mr_shift r)
    (Sqlite.bind_real litres) (Sqlite.bind_real fat) (Sqlite.bind_real snf)
    (Sqlite.bind_real rate) (Sqlite.bind_real amount) (mr_category r).

Definition new_entry (code : Z) (date_db shift : string)
  (litres fat snf rate amount : float) (category : string) : milk_record :=
  mkmilk code date_db shift
    (Sqlite.bind_real litres) (Sqlite.bind_real fat) (Sqlite.bind_real snf)
    (Sqlite.bind_real rate) (Sqlite.bind_real amount) category.

(** The numeric part of [record_milk_late], from the conversions to the
    amount: what it raises is caught by the caller's [except]. *)
Definition validate_and_price (d : db) (litres fat snf : Py.numarg) (category : string)
  : Py.result (float * float * float * float * float) :=
  fat <- Py.float_of fat ;;
  snf <- Py.float_of snf ;;
  litres <- Py.float_of litres ;;
  if (fat <? 0)%float || (snf <? 0)%float || (litres <? 0)%float
  then Py.Raise Py.ValueError
  else
    rate <- find_rate_for d category (Py.Num fat) snf ;;
    Py.Ok (litres, fat, snf, rate, Py.round2 (litres * rate)%float).

Definition record_milk_late (d : db) (code : Z) (date_str shift : string)
  (litres fat snf : Py.numarg) (category : string) : bool * db :=
  match normalize_date_input date_str with
  | Py.Raise _ => (false, d)
  | Py.Ok date_db =>
      if negb (existsb (fun f => farmer_code f =? code) (farmers d)) then (false, d)
      else
        match validate_and_price d litres fat snf category with
        | Py.Raise _ => (false, d)
        | Py.Ok (litres, fat, snf, rate, amount) =>
            if existsb (same_entry code date_db shift category) (milk_records d)
            then
              (true,
               set_milk_records d
                 (map (fun r =>
                         if same_entry code date_db shift category r
                         then update_entry litres fat snf rate amount r else r)
                    (milk_records d)))
            else
              (true,
               set_milk_records d
                 (milk_records d ++
                  [new_entry code date_db shift litres fat snf rate amount category]))
        end
  end.

(** The monthly bill that [generate_and_save] prints. *)
Record bill : Set := mkbill {
  b_code : Z;
  b_month : string;
  b_earnings : float;
  b_deducted : float;
  b_net : float
}.

(** How [generate_and_save] ends: one of its error dialogs, the user
    declining the confirmation, or the bill (saved, or failed in the PDF
    library after the deduction was recorded). *)
Inductive outcome : Set :=
| CodeNotNumeric
| InvalidDeduction
| NegativeDeduction
| ExceedsBalance
| Declined
| RecordFailed
| BillFailed
| BillSaved (b : bill).

(** [SELECT IFNULL(SUM(amount),0) FROM milk_records WHERE farmer_code=?
    AND strftime('%Y-%m', date)=?]. *)
Definition monthly_earnings (d : db) (code : Z) (month : string) : float :=
  Sqlite.ifnull0 (Sqlite.sum (map mr_amount
    (filter (fun r =>
               (mr_farmer_code r =? code) &&
               match sqlite_strftime_Ym (mr_date r) with
               | Some m => String.eqb m month
               | None => false
               end)
       (milk_records d)))).

(** [generate_and_save] of the Generate Monthly Bill popup. The widgets
    are its arguments: the code entry, the month box, the deduction
    entry as [float] reads it, the answer to the confirmation dialog,
    and whether the PDF could be written. *)
Definition generate_and_save (d : db) (today code_txt month : string)
  (ded_txt : Py.numarg) (confirm pdf_ok : bool) : outcome * db :=
  let code_txt := Py.strip code_txt in
  if negb (Py.isdigit code_txt) then (CodeNotNumeric, d)
  else
    let code := Py.int_of code_txt in
    match Py.float_of ded_txt with
    | Py.Raise _ => (InvalidDeduction, d)
    | Py.Ok ded_amt =>
        let earnings := monthly_earnings d code month in
        let prev_bal := get_advance_balance d code (Some month) in
        if (ded_amt <? 0)%float then (NegativeDeduction, d)
        else if (prev_bal <? ded_amt)%float then (ExceedsBalance, d)
        else if (earnings <? ded_amt)%float && negb confirm then (Declined, d)
        else
          let (ok, d') :=
            record_advance_deduction d today code month ded_amt
              ("User deduction for " ++ month)%string in
          if negb ok then (RecordFailed, d')
          else
            let net := Py.round2 (earnings - ded_amt)%float in
            if pdf_ok then (BillSaved (mkbill code month earnings ded_amt net), d')
            else (BillFailed, d')
    end.

End Library.

End DMS.

(** ** [ganesh_dairy_pro_v_5_5.py] *)

Module Ganesh.

Import Db.

Definition get_shift_for_time (now : Datetime.datetime) (dt : option Datetime.datetime) : string :=
  let dt := match dt with Some t => t | None => now end in
  let h := Datetime.hour dt in
  if (4 <=? h) && (h <=? 11) then "Morning"%string
  else if (12 <=? h) && (h <=? 22) then "Evening"%string
  else "Morning"%string.

Definition get_next_farmer_code (d : db) : Z :=
  next_code_from 1 (Sqlite.order_by_int (map farmer_code (farmers d))).

Definition formula_rate (category : string) (fat : float) : float :=
  let base :=
    if Py.startswith (Py.lower category) "buf"
    then (5%float, 45%float) else (3%float, 30%float) in
  let rate := (snd base + (fat - fst base) * 5)%float in
  Py.round2 (Py.max 0%float rate).

Definition find_rate_for (d : db) (category : string) (fat snf : float) : Py.result float :=
  fat_r <- round_tenth fat ;;
  match Sqlite.first_by (snf_distance snf) (slab_rows (rate_table d) category fat_r) with
  | Some row => round_rate row
  | None =>
      match Sqlite.first_by (fat_distance fat_r) (category_rows (rate_table d) category) with
      | Some row => round_rate row
      | None => Py.Ok (formula_rate category fat)
      end
  end.

End Ganesh.

(** ** [DMS.py]: start-up and the dialogs of the application *)

Module DMSApp.

Import Db.

(** What a text entry holds, as the code reads it: nothing once
    stripped, or a text, with the value that [int] or [float] reads from
    it ([None] where they raise ValueError). *)
Inductive entry (A : Type) : Type :=
| Blank
| Typed (v : option A).

Arguments Blank {A}.
Arguments Typed {A} v.

(** A row of the users table. *)
Record user : Set := mkuser {
  username : string;
  password_hash : option string
}.

Definition two49 : float := Eval vm_compute in Z.ldexp one 49.

(** [round(x, 1)], as [Py.round2] with tenths: from [2^49] on the
    doubles are spaced by more than [0.1]. *)
Definition round1 (x : float) : float :=
  match Prim2SF x with
  | S754_finite s m e =>
      if (two49 <=? abs x)%float then x
      else
        let q := (of_uint63 (Uint63.of_Z (Py.scaled_round 10 m e)) / 10)%float in
        if s then (- q)%float else q
  | _ => x
  end.

(** The literals [0.1] and [1e-9] as the doubles Python reads. *)
Definition tenth : float := 0x1.999999999999ap-4%float.
Definition nano : float := 0x1.12e0be826d695p-30%float.

(** The loop [while f <= limit: ...; f = round(f + 0.1, 1)] that builds
    the sample slabs of one category; [None] when the fuel runs out
    before the loop ends. *)
Fixpoint slabs (fuel : nat) (category : string) (base_fat base_rate limit f : float)
  : option (list rate_row) :=
  match fuel with
  | O => None
  | S k =>
      if (f <=? limit)%float then
        let rate := Py.round2 (base_rate + (f - base_fat) * 5)%float in
        option_map
          (cons (mkrate category (Sqlite.bind_real (round1 f)) (Sqlite.bind_real 8%float)
                   (Sqlite.bind_real rate)))
          (slabs k category base_fat base_rate limit (round1 (f + tenth)%float))
      else Some []
  end.

(** The entries that populate an empty rate table: cow slabs from fat
    3.0 while [f <= 6.0 + 1e-9], buffalo slabs from 5.0 while
    [f <= 11.0 + 1e-9]. *)
Definition sample_rates (fuel : nat) : option (list rate_row) :=
  match slabs fuel "Cow" 3%float 30%float (6 + nano)%float 3%float,
        slabs fuel "Buffalo" 5%float 45%float (11 + nano)%float 5%float with
  | Some cow, Some buffalo => Some (cow ++ buffalo)
  | _, _ => None
  end.

Section Library.

(** [hash_password]: the SHA-256 digest of the password, in hex. *)
Variable hash_password : string -> string.

Variable fromisoformat : string -> option Datetime.date.

Definition is_admin (u : user) : bool := String.eqb (username u) "admin".

(** The admin part of [init_db_and_migrate]: an empty table gets the
    admin; otherwise a missing admin is added and an admin without a
    password hash gets the default one. *)
Definition ensure_admin (us : list user) : list user :=
  let admin := mkuser "admin" (Some (hash_password "admin123")) in
  match us with
  | [] => [admin]
  | _ :: _ =>
      match find is_admin us with
      | None => us ++ [admin]
      | Some row =>
          match password_hash row with
          | None =>
              map (fun u => if is_admin u
                            then mkuser (username u) (Some (hash_password "admin123"))
                            else u) us
          | Some _ => us
          end
      end
  end.

(** [init_db_and_migrate] on the users and the tables (which exist):
    the admin is ensured and an empty rate table is populated. *)
Definition init_db_and_migrate (fuel : nat) (us : list user) (d : db)
  : option (list user * db) :=
  match rate_table d with
  | [] =>
      match sample_rates fuel with
      | Some entries =>
          Some (ensure_admin us,
                mkdb (farmers d) (milk_records d) (advances d) entries
                  (advance_deductions d))
      | None => None
      end
  | _ :: _ => Some (ensure_admin us, d)
  end.

Inductive login_outcome : Set :=
| EnterBoth
| LoginFailed
| LoggedIn (current_user : string).

Definition is_empty (s : string) : bool :=
  match s with
  | EmptyString => true
  | String _ _ => false
  end.

(** [row["password_hash"] == hash_password(password)]: a NULL hash
    equals no digest. *)
Definition hash_matches (row : user) (password : string) : bool :=
  match password_hash row with
  | Some h => String.eqb h (hash_password password)
  | None => false
  end.

Definition do_login (us : list user) (login_user login_pass : string) : login_outcome :=
  let username_ := Py.strip login_user in
  let password := Py.strip login_pass in
  if is_empty username_ || is_empty password then EnterBoth
  else
    match find (fun u => String.eqb (username u) username_) us with
    | Some row => if hash_matches row password then LoggedIn username_ else LoginFailed
    | None => LoginFailed
    end.

Inductive change_outcome : Set :=
| FillAllFields
| PasswordsDiffer
| CurrentIncorrect
| PasswordChanged.

(** [do_change] of the Change Password popup, for the user logged in. *)
Definition do_change (us : list user) (current_user cur_e new_e conf_e : string)
  : change_outcome * list user :=
  let curp := Py.strip cur_e in
  let newp := Py.strip new_e in
  let conf := Py.strip conf_e in
  if is_empty curp || is_empty newp || is_empty conf then (FillAllFields, us)
  else if negb (String.eqb newp conf) then (PasswordsDiffer, us)
  else
    match find (fun u => String.eqb (username u) current_user) us with
    | Some row =>
        if hash_matches row curp then
          (PasswordChanged,
           map (fun u => if String.eqb (username u) current_user
                         then mkuser (username u) (Some (hash_password newp))
                         else u) us)
        else (CurrentIncorrect, us)
    | None => (CurrentIncorrect, us)
    end.

Inductive advance_outcome : Set :=
| EnterFarmerCode
| CodeNotInteger
| CheckDateOrAmount
| NegativeAdvance
| FarmerNotFound
| AdvanceRecorded.

(** [save_adv] of the Record Advance popup: the code entry, the date and
    reason texts, and the amount text as [float] reads it. *)
Definition save_adv (d : db) (code_e : entry Z) (date_e reason_e : string)
  (amt_e : Py.numarg) : advance_outcome * db :=
  match code_e with
  | Blank => (EnterFarmerCode, d)
  | Typed None => (CodeNotInteger, d)
  | Typed (Some code) =>
      match (date_db <- DMS.normalize_date_input fromisoformat (Py.strip date_e) ;;
             amount <- Py.float_of amt_e ;;
             Py.Ok (date_db, amount)) with
      | Py.Raise _ => (CheckDateOrAmount, d)
      | Py.Ok (date_db, amount) =>
          if (amount <? 0)%float then (NegativeAdvance, d)
          else if negb (existsb (fun f => farmer_code f =? code) (farmers d))
          then (FarmerNotFound, d)
          else
            (AdvanceRecorded,
             mkdb (farmers d) (milk_records d)
               (advances d ++
                [mkadvance code date_db (Py.strip reason_e) (Sqlite.bind_real amount)])
               (rate_table d) (advance_deductions d))
      end
  end.

Inductive quick_outcome : Set :=
| QEnterFarmerCode
| QCodeNotInteger
| QFarmerNotFound
| QSelectCategory
| QBadDate
| QNumericInvalid
| QNegative
| QSaved (warned : bool).

(** [x or "Cow"]. *)
Definition or_cow (x : string) : string :=
  match x with
  | EmptyString => "Cow"%string
  | _ => x
  end.

(** The two range warnings of [quick_save_record]; they are shown and
    the record is saved all the same. *)
Definition fat_warning (category : string) (fat : float) : bool :=
  (String.eqb category "Cow" && negb ((0 <=? fat) && (fat <=? 8))%float) ||
  (String.eqb category "Buffalo" && negb ((0 <=? fat) && (fat <=? 12))%float).

(** The numeric entries of [quick_save_record]: litres, fat rounded to
    one decimal, snf with 8.0 for an empty entry. *)
Definition quick_numbers (e_litres e_fat : Py.numarg) (e_snf : entry float)
  : Py.result (float * float * float) :=
  litres <- Py.float_of e_litres ;;
  fat <- Py.float_of e_fat ;;
  snf <- match e_snf with
         | Blank => Py.Ok 8%float
         | Typed (Some s) => Py.Ok s
         | Typed None => Py.Raise Py.ValueError
         end ;;
  Py.Ok (litres, round1 fat, snf).

(** [quick_save_record]: the entries of the quick-entry row, the
    category box (when the farmer sells both kinds) and the clock. What
    [find_rate_for] raises is not caught and ends the call. *)
Definition quick_save_record (now : Datetime.datetime) (d : db) (e_code : entry Z)
  (entry_category_widget : option string) (e_date e_shift : string)
  (e_litres e_fat : Py.numarg) (e_snf e_rate : entry float)
  : Py.result (quick_outcome * db) :=
  match e_code with
  | Blank => Py.Ok (QEnterFarmerCode, d)
  | Typed None => Py.Ok (QCodeNotInteger, d)
  | Typed (Some code) =>
      match find (fun f => farmer_code f =? code) (farmers d) with
      | None => Py.Ok (QFarmerNotFound, d)
      | Some farmer =>
          let farmer_cat := or_cow (category farmer) in
          match (if String.eqb farmer_cat "Both"
                 then option_map or_cow entry_category_widget
                 else Some farmer_cat) with
          | None => Py.Ok (QSelectCategory, d)
          | Some category =>
              match DMS.normalize_date_input fromisoformat (Py.strip e_date) with
              | Py.Raise _ => Py.Ok (QBadDate, d)
              | Py.Ok date_db =>
                  let shift :=
                    match Py.strip e_shift with
                    | EmptyString => DMS.get_shift_for_time now None
                    | s => s
                    end in
                  match quick_numbers e_litres e_fat e_snf with
                  | Py.Raise _ => Py.Ok (QNumericInvalid, d)
                  | Py.Ok (litres, fat, snf) =>
                      if (litres <? 0)%float || (fat <? 0)%float || (snf <? 0)%float
                      then Py.Ok (QNegative, d)
                      else
                        rate <- match e_rate with
                                | Typed (Some r) => Py.Ok r
                                | _ => DMS.find_rate_for d category (Py.Num fat) snf
                                end ;;
                        let amount := Py.round2 (litres * rate)%float in
                        Py.Ok (QSaved (fat_warning category fat),
                               set_milk_records d
                                 (milk_records d ++
                                  [DMS.new_entry code date_db shift litres fat snf rate
                                     amount category]))
                  end
              end
          end
      end
  end.

(** [float(text) if text else default] on an entry. *)
Definition entry_or (default : float) (e : entry float) : Py.result float :=
  match e with
  | Blank => Py.Ok default
  | Typed (Some x) => Py.Ok x
  | Typed None => Py.Raise Py.ValueError
  end.

(** [quick_calculate]: the rate and the amount that it writes into the
    rate and amount entries (there with two decimals), [None] for the
    message that the numbers must be numeric. Whatever fails while the
    farmer's category is looked up leaves the category at Cow; what
    [find_rate_for] raises ends the call. *)
Definition quick_calculate (d : db) (e_code : entry Z)
  (entry_category_widget : option string) (e_litres e_fat e_snf : entry float)
  : Py.result (option (float * float)) :=
  match (fat <- entry_or 0%float e_fat ;;
         snf <- entry_or 8%float e_snf ;;
         litres <- entry_or 0%float e_litres ;;
         Py.Ok (fat, snf, litres)) with
  | Py.Raise _ => Py.Ok None
  | Py.Ok (fat, snf, litres) =>
      let cat :=
        match e_code with
        | Typed (Some code) =>
            match find (fun f => farmer_code f =? code) (farmers d) with
            | Some r =>
                if is_empty (category r) then "Cow"%string
                else if String.eqb (category r) "Both"
                     then match entry_category_widget with
                          | Some shown => shown
                          | None => "Cow"%string
                          end
                     else category r
            | None => "Cow"%string
            end
        | _ => "Cow"%string
        end in
      rate <- DMS.find_rate_for d cat (Py.Num (round1 fat)) snf ;;
      Py.Ok (Some (rate, Py.round2 (litres * rate)%float))
  end.

End Library.

End DMSApp.

(** * Vocabulary of the statements *)

Import Db.

(** ** Shifts *)

(** Half past four in the morning of 5 January 2024. *)
Definition four_am : Datetime.datetime :=
  Datetime.mkdatetime (Datetime.mkdate 2024 1 5) 4 30 0.

(** ** Farmer codes *)

(** The least free code from 1 on, as a relation. *)
Definition least_free (codes : list Z) (n : Z) : Prop :=
  1 <= n /\ ~ In n codes /\ forall m, 1 <= m < n -> In m codes.

(** ** Advances *)

(** A: every advance of the farmer, whatever its date. *)
Definition advance_total (d : db) (c : Z) : float :=
  Sqlite.ifnull0 (Sqlite.sum (map ad_amount
    (filter (fun a => ad_farmer_code a =? c) (advances d)))).

(** D: the deductions of the farmer booked on a month before [m]. *)
Definition deduction_total_before (d : db) (c : Z) (m : string) : float :=
  Sqlite.ifnull0 (Sqlite.sum (map dd_amount
    (filter (fun x => (dd_farmer_code x =? c) && String.ltb (dd_month x) m)
       (advance_deductions d)))).

(** D when no month is given: every deduction of the farmer. *)
Definition deduction_total (d : db) (c : Z) : float :=
  Sqlite.ifnull0 (Sqlite.sum (map dd_amount
    (filter (fun x => dd_farmer_code x =? c) (advance_deductions d)))).

(** The database with one more deduction, one more advance. *)
Definition with_deduction (d : db) (x : advance_deduction) : db :=
  set_advance_deductions d (advance_deductions d ++ [x]).

Definition with_advance (d : db) (a : advance) : db :=
  mkdb (farmers d) (milk_records d) (advances d ++ [a]) (rate_table d)
    (advance_deductions d).

(** Farmer 7: two advances, and deductions booked on January, February
    and March 2024. *)
Definition ledger_of_farmer_7 : db :=
  mkdb [] []
    [mkadvance 7 "2024-01-03" "feed" (Some 500%float);
     mkadvance 7 "2024-03-09" "vet" (Some 250.5%float)]
    []
    [mkdeduction 7 "2024-02-01" "2024-01" (Some 100%float) "";
     mkdeduction 7 "2024-03-01" "2024-02" (Some 50%float) "";
     mkdeduction 7 "2024-04-01" "2024-03" (Some 25%float) ""].

(** ** Late milk entries *)

(** The key of an entry: farmer, date, shift and category. *)
Definition entry_key (r : milk_record) : Z * string * string * string :=
  (mr_farmer_code r, mr_date r, mr_shift r, mr_category r).

(** At most one milk record per key. *)
Definition unique_entries (rows : list milk_record) : Prop :=
  NoDup (map entry_key rows).

(** The table after a successful call: the rows of the key rewritten
    where there are some, one row appended where there is none. *)
Definition upsert (rows : list milk_record) (code : Z) (date_db shift : string)
  (l f s rate : float) (category : string) : list milk_record :=
  if existsb (DMS.same_entry code date_db shift category) rows
  then map (fun r => if DMS.same_entry code date_db shift category r
                     then DMS.update_entry l f s rate (Py.round2 (l * rate)%float) r
                     else r) rows
  else rows ++ [DMS.new_entry code date_db shift l f s rate
                  (Py.round2 (l * rate)%float) category].

(** The reasons for which [record_milk_late] gives up: an argument on
    which [float] raises, a number below zero, a rate lookup that
    raises. *)
Definition not_a_number (a : Py.numarg) : Prop := a = Py.NotNumeric.

Definition negative (a : Py.numarg) : Prop :=
  exists x, a = Py.Num x /\ (x <? 0)%float = true.

Definition rate_lookup_raises (d : db) (category : string) (fat snf : Py.numarg) : Prop :=
  exists f s, fat = Py.Num f /\ snf = Py.Num s /\
              Py.raises (DMS.find_rate_for d category (Py.Num f) s) = true.

(** The reasons of C9: the date does not normalize, the farmer is
    unknown, an argument is no number or is below zero. *)
Definition listed_reason (fromisoformat : string -> option Datetime.date)
  (d : db) (code : Z) (date_str : string) (litres fat snf : Py.numarg) : Prop :=
  Py.raises (DMS.normalize_date_input fromisoformat date_str) = true \/
  existsb (fun x => farmer_code x =? code) (farmers d) = false \/
  (not_a_number litres \/ not_a_number fat \/ not_a_number snf) \/
  (negative litres \/ negative fat \/ negative snf).

(** A small dairy: two farmers, two cow slabs at fat 4.0, one milk
    record of farmer 1 for the morning of 5 January 2024. *)
Definition small_dairy : db :=
  mkdb
    [mkfarmer 1 "Asha" "Cow"; mkfarmer 2 "Ravi" "Buffalo"]
    [mkmilk 1 "2024-01-05" "Morning" (Some 8%float) (Some 4%float) (Some 8%float)
       (Some 35%float) (Some 280%float) "Cow"]
    []
    [mkrate "Cow" (Some 4%float) (Some 8%float) (Some 35%float);
     mkrate "Cow" (Some 4%float) (Some 8.5%float) (Some 36%float)]
    [].

(** A [fromisoformat] that refuses every string. *)
Definition no_iso (s : string) : option Datetime.date := None.

(** ** Rate lookup *)

(** A row of least key among [rows], in the order of ORDER BY. *)
Definition closest (key : rate_row -> Sqlite.real) (rows : list rate_row)
  (r : rate_row) : Prop :=
  In r rows /\ forall r', In r' rows -> Sqlite.lt (key r') (key r) = false.

(** The base slab of the fallback line: buffalo for a category name
    that starts with buf in any case, cow otherwise. *)
Definition base_slab (category : string) : float * float :=
  if Py.startswith (Py.lower category) "buf"
  then (5%float, 45%float) else (3%float, 30%float).

(** The three stages of C1, for the category [category], the fat
    [fat], its slab [fat_r] and the result [res]. *)
Definition three_stages (t : list rate_row) (category : string)
  (fat fat_r snf : float) (res : Py.result float) : Prop :=
  (slab_rows t category fat_r <> [] ->
     exists r, closest (snf_distance snf) (slab_rows t category fat_r) r /\
               res = round_rate r) /\
  (slab_rows t category fat_r = [] -> category_rows t category <> [] ->
     exists r, closest (fat_distance fat_r) (category_rows t category) r /\
               res = round_rate r) /\
  (category_rows t category = [] ->
     res = Py.Ok (Py.round2 (Py.max 0%float
             (snd (base_slab category) + (fat - fst (base_slab category)) * 5)%float))).

(** ** Monthly bill *)

(** SQLite's [strftime('%Y-%m', date)] on the dates the application
    stores (YYYY-MM-DD): their first seven characters. *)
Definition stored_month (s : string) : option string :=
  Some (String.substring 0 7 s).

(** Farmer 1 with an advance of 500 and 280 earned in January 2024. *)
Definition dairy_with_advance : db :=
  mkdb (farmers small_dairy) (milk_records small_dairy)
    [mkadvance 1 "2023-12-20" "feed" (Some 500%float)]
    (rate_table small_dairy) [].

(** ** Dates *)

(** Day first and year first, with any separator. *)
Definition fmt_dmy (c : ascii) : list Datetime.directive :=
  [Datetime.Dd; Datetime.Lit c; Datetime.Dm; Datetime.Lit c; Datetime.DY].

Definition fmt_ymd (c : ascii) : list Datetime.directive :=
  [Datetime.DY; Datetime.Lit c; Datetime.Dm; Datetime.Lit c; Datetime.Dd].

(** The last character of [s] is no white space. *)
Fixpoint ends_nonspace (s : string) : bool :=
  match s with
  | EmptyString => false
  | String c r =>
      match r with
      | EmptyString => negb (Py.isspace c)
      | String _ _ => ends_nonspace r
      end
  end.

(** 29 February 2024. *)
Definition leap_day_2024 : Datetime.date := Datetime.mkdate 2024 2 29.

(** ** Start-up and passwords *)

(** The sample slabs that populate an empty rate table, as the loops
    give them with fuel for their 62 turns. *)
Definition seeded_rates : list rate_row :=
  Eval vm_compute in
    match DMSApp.sample_rates 62 with
    | Some l => l
    | None => []
    end.

(** A database with the sample slabs and nothing else. *)
Definition fresh_dairy : db := mkdb [] [] [] seeded_rates [].

(** A stand-in for the digest, one to one on passwords. *)
Definition tag_hash (p : string) : string := ("sha256:" ++ p)%string.

(** The users table of a fresh installation under [tag_hash]. *)
Definition fresh_users : list DMSApp.user :=
  [DMSApp.mkuser "admin" (Some (tag_hash "admin123"))].

(** The slab [r] of the table [t] lies on the fallback line: it is the
    only row of [t] for its category and fat, its fat is its own slab,
    it is priced at snf 8.0, and its rate is the rate of the formula at
    its fat, already on two decimals. *)
Definition on_the_line (t : list rate_row) (r : rate_row) : Prop :=
  exists f rate : float,
    rt_fat r = Some f /\ rt_snf r = Some 8%float /\ rt_rate r = Some rate /\
    round_tenth f = Py.Ok f /\
    DMS.default_category (rt_category r) = rt_category r /\
    slab_rows t (rt_category r) f = [r] /\
    Py.round2 rate = rate /\
    DMS.formula_rate (rt_category r) f = rate.

(** The fresh users table after the admin changed the password to
    milk42. *)
Definition changed_users : list DMSApp.user :=
  [DMSApp.mkuser "admin" (Some (tag_hash "milk42"))].

(** The tables of a database file that was just created. *)
Definition empty_dairy : db := mkdb [] [] [] [] [].

(** The small dairy after the quick entry saved farmer 1's morning of
    5 January 2024 a second time. *)
Definition small_dairy_twice : db :=
  set_milk_records small_dairy
    (milk_records small_dairy ++
     [mkmilk 1 "2024-01-05" "Morning" (Some 8%float) (Some 4%float) (Some 8%float)
        (Some 35%float) (Some 280%float) "Cow"]).

(** What [float] reads from the text of an entry: an empty text is no
    number. *)
Definition typed_number (e : DMSApp.entry float) : Py.numarg :=
  match e with
  | DMSApp.Typed (Some x) => Py.Num x
  | _ => Py.NotNumeric
  end.

(** * Properties *)

(** ** Shifts *)

(** C6: on every datetime, [get_shift_for_time] of either application
    answers Morning or Evening and nothing else, and two datetimes of
    the same hour get the same answer. *)
Theorem get_shift_for_time_two_values :
  forall (now dt : Datetime.datetime),
    (DMS.get_shift_for_time now (Some dt) = "Morning"%string \/
     DMS.get_shift_for_time now (Some dt) = "Evening"%string) /\
    (Ganesh.get_shift_for_time now (Some dt) = "Morning"%string \/
     Ganesh.get_shift_for_time now (Some dt) = "Evening"%string) /\
    (forall now' dt' : Datetime.datetime,
        Datetime.hour dt' = Datetime.hour dt ->
        DMS.get_shift_for_time now' (Some dt') = DMS.get_shift_for_time now (Some dt) /\
        Ganesh.get_shift_for_time now' (Some dt') = Ganesh.get_shift_for_time now (Some dt)).
Proof.
  intros now dt. unfold DMS.get_shift_for_time, Ganesh.get_shift_for_time.
  split; [|split].
  - destruct ((6 <=? Datetime.hour dt) && (Datetime.hour dt <? 16)); auto.
  - destruct ((4 <=? Datetime.hour dt) && (Datetime.hour dt <=? 11)); auto.
    destruct ((12 <=? Datetime.hour dt) && (Datetime.hour dt <=? 22)); auto.
  - intros now' dt' Hhour. now rewrite Hhour.
Qed.

(** C7, as stated, fails: at half past four in the morning [DMS.py]
    answers Evening and [ganesh_dairy_pro_v_5_5.py] answers Morning. *)
Lemma get_shift_for_time_versions_differ :
  DMS.get_shift_for_time four_am (Some four_am) = "Evening"%string /\
  Ganesh.get_shift_for_time four_am (Some four_am) = "Morning"%string /\
  DMS.get_shift_for_time four_am (Some four_am) <>
  Ganesh.get_shift_for_time four_am (Some four_am).
Proof.
  repeat split. discriminate.
Qed.

(** C7, amended: the two applications agree on the shift exactly for
    the hours 6 to 11 (both Morning) and 16 to 22 (both Evening); at
    every other hour they differ. *)
Theorem get_shift_for_time_versions_agree_iff :
  forall (now dt : Datetime.datetime),
    DMS.get_shift_for_time now (Some dt) = Ganesh.get_shift_for_time now (Some dt) <->
    (6 <= Datetime.hour dt <= 11 \/ 16 <= Datetime.hour dt <= 22).
Proof.
  intros now dt. unfold DMS.get_shift_for_time, Ganesh.get_shift_for_time.
  set (h := Datetime.hour dt).
  destruct (Z.leb_spec 6 h), (Z.ltb_spec h 16), (Z.leb_spec 4 h),
    (Z.leb_spec h 11), (Z.leb_spec 12 h), (Z.leb_spec h 22); simpl;
    split; intros; try discriminate; try reflexivity; try lia.
Qed.

(** ** Farmer codes *)

Lemma insert_int_in (x y : Z) (l : list Z) :
  In x (Sqlite.insert_int y l) <-> x = y \/ In x l.
Proof.
  induction l as [|z l IH]; simpl.
  - intuition.
  - destruct (y <=? z); simpl; rewrite ?IH; intuition.
Qed.

Lemma insert_int_sorted (x : Z) (l : list Z) :
  StronglySorted Z.le l -> StronglySorted Z.le (Sqlite.insert_int x l).
Proof.
  induction 1 as [|z l Hs IH Hall]; simpl.
  - repeat constructor.
  - destruct (Z.leb_spec x z).
    + constructor; [now constructor|].
      constructor; [assumption|].
      rewrite Forall_forall in *. intros w Hw. specialize (Hall w Hw). lia.
    + constructor; [assumption|].
      rewrite Forall_forall in *. intros w Hw.
      apply insert_int_in in Hw. destruct Hw as [->|Hw]; [lia|auto].
Qed.

Lemma order_by_int_in (x : Z) (l : list Z) :
  In x (Sqlite.order_by_int l) <-> In x l.
Proof.
  unfold Sqlite.order_by_int. induction l as [|y l IH]; simpl.
  - tauto.
  - rewrite insert_int_in, IH. intuition.
Qed.

Lemma order_by_int_sorted (l : list Z) :
  StronglySorted Z.le (Sqlite.order_by_int l).
Proof.
  unfold Sqlite.order_by_int. induction l; simpl.
  - constructor.
  - now apply insert_int_sorted.
Qed.

(** The loop, started at [n] on a sorted list, stops at the first
    integer from [n] on that the list lacks. *)
Lemma next_code_from_spec (rows : list Z) :
  StronglySorted Z.le rows ->
  forall n,
    n <= next_code_from n rows /\
    (forall m, n <= m < next_code_from n rows -> In m rows) /\
    ~ In (next_code_from n rows) rows.
Proof.
  induction 1 as [|code rest Hs IH Hall]; intros n; simpl.
  - repeat split; [lia | lia | tauto].
  - rewrite Forall_forall in Hall.
    destruct (Z.eqb_spec code n) as [->|Hne].
    + destruct (IH (n + 1)) as (Hle & Hfill & Hfree).
      repeat split; [lia | |].
      * intros m Hm. destruct (Z.eq_dec m n); [now left|right; apply Hfill; lia].
      * intros [Heq|Hin]; [lia|auto].
    + destruct (Z.ltb_spec n code).
      * repeat split; [lia | lia |].
        intros [Heq|Hin]; [lia|]. specialize (Hall _ Hin). lia.
      * destruct (IH n) as (Hle & Hfill & Hfree).
        repeat split; [lia | |].
        -- intros m Hm. right. now apply Hfill.
        -- intros [Heq|Hin]; [lia|auto].
Qed.

Lemma least_free_unique (codes : list Z) (n n' : Z) :
  least_free codes n -> least_free codes n' -> n = n'.
Proof.
  intros (H1 & Hf & Hb) (H1' & Hf' & Hb').
  destruct (Z.lt_trichotomy n n') as [Hlt|[Heq|Hgt]]; [|assumption|].
  - exfalso. apply Hf, Hb'. lia.
  - exfalso. apply Hf', Hb. lia.
Qed.

Lemma get_next_farmer_code_least (d : db) :
  least_free (map farmer_code (farmers d)) (DMS.get_next_farmer_code d).
Proof.
  unfold DMS.get_next_farmer_code, least_free.
  destruct (next_code_from_spec (order_by_int_sorted (map farmer_code (farmers d))) 1)
    as (Hle & Hfill & Hfree).
  repeat split; [assumption | |].
  - now rewrite <- order_by_int_in.
  - intros m Hm. rewrite <- order_by_int_in. now apply Hfill.
Qed.

Lemma delete_farmer_codes (d : db) (c x : Z) :
  In x (map farmer_code (farmers (DMS.delete_farmer d c))) <->
  In x (map farmer_code (farmers d)) /\ x <> c.
Proof.
  simpl. rewrite !in_map_iff. split.
  - intros (f & <- & Hf). apply filter_In in Hf. destruct Hf as (Hf & Hc).
    split; [now exists f|]. destruct (Z.eqb_spec (farmer_code f) c); [discriminate|assumption].
  - intros ((f & <- & Hf) & Hne). exists f. split; [reflexivity|].
    apply filter_In. split; [assumption|].
    destruct (Z.eqb_spec (farmer_code f) c); [contradiction|reflexivity].
Qed.


(** ** Advance balance *)

Lemma sum_snoc (vs : list Sqlite.real) (x : float) :
  Sqlite.sum (vs ++ [Some x]) =
  Sqlite.bind_real (fold_left PrimFloat.add (Sqlite.non_null vs) 0%float + x)%float.
Proof.
  unfold Sqlite.sum.
  assert (Hnn : Sqlite.non_null (vs ++ [Some x]) = Sqlite.non_null vs ++ [x]).
  { induction vs as [|[v|] vs IH]; simpl; congruence. }
  rewrite Hnn.
  destruct (Sqlite.non_null vs) as [|y ys]; [reflexivity|].
  cbn [app]. change (y :: ys ++ [x]) with ((y :: ys) ++ [x]).
  now rewrite fold_left_app.
Qed.

(** C2: for a month string [m], the balance is [round(A - D, 2)] with
    [A] the sum of all advances of the farmer and [D] the sum of the
    farmer's deductions whose month is strictly below [m]; without a
    month, [D] is the sum of all the farmer's deductions. So a deduction
    booked on [m] or later, or for another farmer, does not count, and
    an advance of the farmer counts whatever its date. *)
Theorem get_advance_balance_formula :
  forall (d : db) (c : Z) (m : string),
    m <> EmptyString ->
    DMS.get_advance_balance d c (Some m) =
      Py.round2 (advance_total d c - deduction_total_before d c m)%float /\
    DMS.get_advance_balance d c None =
      Py.round2 (advance_total d c - deduction_total d c)%float /\
    (forall x : advance_deduction,
        dd_farmer_code x <> c \/ String.ltb (dd_month x) m = false ->
        DMS.get_advance_balance (with_deduction d x) c (Some m) =
        DMS.get_advance_balance d c (Some m)) /\
    (forall (date reason : string) (amount : float),
        advance_total (with_advance d (mkadvance c date reason (Some amount))) c =
        Sqlite.ifnull0 (Sqlite.bind_real
          (PrimFloat.add
             (fold_left PrimFloat.add
                (Sqlite.non_null (map ad_amount
                   (filter (fun a => ad_farmer_code a =? c) (advances d)))) 0%float)
             amount))).
Proof.
  intros d c m Hm.
  assert (Hgiven : DMS.month_given (Some m) = Some m) by (destruct m; [now elim Hm|reflexivity]).
  split; [|split; [|split]].
  - unfold DMS.get_advance_balance. rewrite Hgiven. reflexivity.
  - reflexivity.
  - intros x Hx. unfold DMS.get_advance_balance. rewrite Hgiven.
    cbn [with_deduction set_advance_deductions advance_deductions advances].
    rewrite filter_app. cbn [filter].
    replace ((dd_farmer_code x =? c) && String.ltb (dd_month x) m) with false.
    + now rewrite app_nil_r.
    + destruct Hx as [Hx|Hx].
      * destruct (Z.eqb_spec (dd_farmer_code x) c); [contradiction|reflexivity].
      * rewrite Hx. now rewrite andb_false_r.
  - intros date reason amount. unfold advance_total.
    cbn [with_advance advances]. rewrite filter_app. cbn [filter ad_farmer_code].
    rewrite Z.eqb_refl, map_app. cbn [map ad_amount].
    now rewrite sum_snoc.
Qed.

(** C2 on a farmer with two advances and deductions booked in January,
    February and March 2024, seen from February. *)
Lemma get_advance_balance_formula_witness :
  DMS.get_advance_balance ledger_of_farmer_7 7 (Some "2024-02"%string) = 650.5%float /\
  DMS.get_advance_balance ledger_of_farmer_7 7 None = 575.5%float.
Proof.
  destruct (@get_advance_balance_formula ledger_of_farmer_7 7 "2024-02"%string)
    as (H1 & H2 & _).
  - discriminate.
  - split; [rewrite H1|rewrite H2]; vm_compute; reflexivity.
Defined.

(** ** Late milk entries *)

Section LateEntries.

Variable fromisoformat : string -> option Datetime.date.

Lemma same_entry_key (code : Z) (date_db shift category : string) (r : milk_record) :
  DMS.same_entry code date_db shift category r = true <->
  entry_key r = (code, date_db, shift, category).
Proof.
  unfold DMS.same_entry, entry_key.
  rewrite !andb_true_iff, Z.eqb_eq, !String.eqb_eq.
  split; [intros (((-> & ->) & ->) & ->); reflexivity | intros [= -> -> -> ->]; auto].
Qed.

Lemma update_entry_key (l f s rate amount : float) (r : milk_record) :
  entry_key (DMS.update_entry l f s rate amount r) = entry_key r.
Proof. reflexivity. Qed.

Lemma record_milk_late_false (d : db) (code : Z) (date_str shift : string)
  (litres fat snf : Py.numarg) (category : string) (d' : db) :
  DMS.record_milk_late fromisoformat d code date_str shift litres fat snf category
    = (false, d') ->
  d' = d.
Proof.
  unfold DMS.record_milk_late.
  destruct (DMS.normalize_date_input fromisoformat date_str); [|congruence].
  destruct (negb (existsb _ (farmers d))); [congruence|].
  destruct (DMS.validate_and_price d litres fat snf category)
    as [[[[[l f] s] rate] amount]|]; [|congruence].
  destruct (existsb _ (milk_records d)); discriminate.
Qed.

Lemma validate_and_price_ok (d : db) (litres fat snf : Py.numarg) (category : string)
  (l f s rate amount : float) :
  DMS.validate_and_price d litres fat snf category = Py.Ok (l, f, s, rate, amount) ->
  litres = Py.Num l /\ fat = Py.Num f /\ snf = Py.Num s /\
  (f <? 0)%float = false /\ (s <? 0)%float = false /\ (l <? 0)%float = false /\
  DMS.find_rate_for d category (Py.Num f) s = Py.Ok rate /\
  amount = Py.round2 (l * rate)%float.
Proof.
  unfold DMS.validate_and_price.
  destruct fat as [f0|]; [|discriminate].
  destruct snf as [s0|]; [|discriminate].
  destruct litres as [l0|]; [|discriminate].
  cbn [Py.float_of Py.bind].
  destruct (f0 <? 0)%float eqn:Hf; [discriminate|].
  destruct (s0 <? 0)%float eqn:Hs; [discriminate|].
  destruct (l0 <? 0)%float eqn:Hl; [discriminate|].
  cbn [orb].
  destruct (DMS.find_rate_for d category (Py.Num f0) s0) as [r0|] eqn:Hr; [|discriminate].
  cbn [Py.bind]. intros [= <- <- <- <- <-]. repeat split; assumption.
Qed.

Lemma record_milk_late_true (d : db) (code : Z) (date_str shift : string)
  (litres fat snf : Py.numarg) (category : string) (d' : db) :
  DMS.record_milk_late fromisoformat d code date_str shift litres fat snf category
    = (true, d') ->
  exists (date_db : string) (l f s rate : float),
    DMS.normalize_date_input fromisoformat date_str = Py.Ok date_db /\
    existsb (fun x => farmer_code x =? code) (farmers d) = true /\
    DMS.validate_and_price d litres fat snf category =
      Py.Ok (l, f, s, rate, Py.round2 (l * rate)%float) /\
    d' = set_milk_records d (upsert (milk_records d) code date_db shift l f s rate category).
Proof.
  unfold DMS.record_milk_late.
  destruct (DMS.normalize_date_input fromisoformat date_str) as [date_db|]; [|discriminate].
  destruct (existsb _ (farmers d)) eqn:Hfarmer; [|discriminate]. cbn [negb].
  destruct (DMS.validate_and_price d litres fat snf category)
    as [[[[[l f] s] rate] amount]|] eqn:Hv; [|discriminate].
  destruct (validate_and_price_ok _ _ _ _ _ Hv) as (_ & _ & _ & _ & _ & _ & _ & ->).
  intros H. exists date_db, l, f, s, rate.
  repeat split; try reflexivity.
  unfold upsert.
  destruct (existsb _ (milk_records d)); now inversion H.
Qed.

(** C4: after a successful call, the milk record of the entry holds the
    rate that [find_rate_for(category, fat, snf)] returned and the
    amount [round(litres * rate, 2)], as the INSERT or UPDATE bound
    them; only the rows of that entry were written. *)
Theorem record_milk_late_stores_rate_and_amount :
  forall (d : db) (code : Z) (date_str shift : string)
    (litres fat snf : Py.numarg) (category : string) (d' : db),
    DMS.record_milk_late fromisoformat d code date_str shift litres fat snf category
      = (true, d') ->
    exists (date_db : string) (l f s rate : float),
      DMS.normalize_date_input fromisoformat date_str = Py.Ok date_db /\
      litres = Py.Num l /\ fat = Py.Num f /\ snf = Py.Num s /\
      DMS.find_rate_for d category (Py.Num f) s = Py.Ok rate /\
      (exists r, In r (milk_records d') /\
                 entry_key r = (code, date_db, shift, category)) /\
      (forall r, In r (milk_records d') ->
         entry_key r = (code, date_db, shift, category) ->
         mr_rate r = Sqlite.bind_real rate /\
         mr_amount r = Sqlite.bind_real (Py.round2 (l * rate)%float)) /\
      (forall r, In r (milk_records d') ->
         entry_key r <> (code, date_db, shift, category) ->
         In r (milk_records d)).
Proof.
  intros d code date_str shift litres fat snf category d' H.
  destruct (record_milk_late_true _ _ _ _ _ _ _ _ H)
    as (date_db & l & f & s & rate & Hdate & _ & Hv & ->).
  destruct (validate_and_price_ok _ _ _ _ _ Hv) as (-> & -> & -> & _ & _ & _ & Hrate & _).
  exists date_db, l, f, s, rate.
  do 5 (split; [first [assumption | reflexivity]|]).
  cbn [set_milk_records milk_records]. unfold upsert.
  destruct (existsb _ (milk_records d)) eqn:Hex.
  - split; [|split].
    + apply existsb_exists in Hex. destruct Hex as (r & Hin & Hsame).
      exists (DMS.update_entry l f s rate (Py.round2 (l * rate)%float) r). split.
      * apply in_map_iff. exists r. now rewrite Hsame.
      * rewrite update_entry_key. now apply same_entry_key.
    + intros r' Hin Hkey. apply in_map_iff in Hin. destruct Hin as (r & <- & Hin).
      destruct (DMS.same_entry code date_db shift category r) eqn:Hsame; [now split|].
      apply same_entry_key in Hkey. congruence.
    + intros r' Hin Hkey. apply in_map_iff in Hin. destruct Hin as (r & <- & Hin).
      destruct (DMS.same_entry code date_db shift category r) eqn:Hsame; [|assumption].
      exfalso. apply Hkey. rewrite update_entry_key. now apply same_entry_key.
  - split; [|split].
    + eexists. split; [apply in_app_iff; right; left; reflexivity|reflexivity].
    + intros r Hin Hkey. apply in_app_iff in Hin. destruct Hin as [Hin|[<-|[]]].
      * exfalso. apply same_entry_key in Hkey.
        assert (Ht : existsb (DMS.same_entry code date_db shift category) (milk_records d) = true)
          by (apply existsb_exists; now exists r).
        congruence.
      * now split.
    + intros r Hin Hkey. apply in_app_iff in Hin. destruct Hin as [Hin|[<-|[]]];
        [assumption|now elim Hkey].
Qed.

Lemma upsert_keys_when_present (rows : list milk_record) (code : Z)
  (date_db shift : string) (l f s rate : float) (category : string) :
  In (code, date_db, shift, category) (map entry_key rows) ->
  upsert rows code date_db shift l f s rate category =
    map (fun r => if DMS.same_entry code date_db shift category r
                  then DMS.update_entry l f s rate (Py.round2 (l * rate)%float) r
                  else r) rows /\
  map entry_key (upsert rows code date_db shift l f s rate category) = map entry_key rows.
Proof.
  intros Hin. unfold upsert.
  assert (Hex : existsb (DMS.same_entry code date_db shift category) rows = true).
  { apply in_map_iff in Hin. destruct Hin as (r & Hk & Hr).
    apply existsb_exists. exists r. split; [assumption|now apply same_entry_key]. }
  rewrite Hex. split; [reflexivity|].
  rewrite map_map. apply map_ext. intros r.
  destruct (DMS.same_entry code date_db shift category r); reflexivity.
Qed.

Lemma upsert_when_absent (rows : list milk_record) (code : Z)
  (date_db shift : string) (l f s rate : float) (category : string) :
  ~ In (code, date_db, shift, category) (map entry_key rows) ->
  upsert rows code date_db shift l f s rate category =
    rows ++ [DMS.new_entry code date_db shift l f s rate
               (Py.round2 (l * rate)%float) category].
Proof.
  intros Hnin. unfold upsert.
  destruct (existsb (DMS.same_entry code date_db shift category) rows) eqn:Hex;
    [|reflexivity].
  exfalso. apply Hnin. apply existsb_exists in Hex. destruct Hex as (r & Hr & Hsame).
  apply in_map_iff. exists r. split; [now apply same_entry_key|assumption].
Qed.

Lemma upsert_unique (rows : list milk_record) (code : Z)
  (date_db shift : string) (l f s rate : float) (category : string) :
  unique_entries rows ->
  unique_entries (upsert rows code date_db shift l f s rate category).
Proof.
  unfold unique_entries. intros Hu.
  destruct (in_dec (fun a b : Z * string * string * string =>
                      ltac:(repeat decide equality) : {a = b} + {a <> b})
              (code, date_db, shift, category) (map entry_key rows)) as [Hin|Hnin].
  - destruct (upsert_keys_when_present rows code date_db shift l f s rate category Hin)
      as (_ & ->). assumption.
  - rewrite (upsert_when_absent rows code date_db shift l f s rate category Hnin).
    rewrite map_app. apply NoDup_app; [assumption | repeat constructor; intros [] |].
    intros k Hk [<-|[]]. now apply Hnin.
Qed.


Lemma validate_and_price_raises (d : db) (litres fat snf : Py.numarg) (category : string) :
  Py.raises (DMS.validate_and_price d litres fat snf category) = true <->
  (not_a_number litres \/ not_a_number fat \/ not_a_number snf) \/
  (negative litres \/ negative fat \/ negative snf) \/
  rate_lookup_raises d category fat snf.
Proof.
  unfold DMS.validate_and_price, not_a_number, negative, rate_lookup_raises.
  destruct fat as [f|]; [|cbn; intuition].
  destruct snf as [s|]; [|cbn; intuition].
  destruct litres as [l|]; [|cbn; intuition].
  cbn [Py.float_of Py.bind].
  destruct (f <? 0)%float eqn:Hf.
  { cbn. split; [intros _|reflexivity]. right. left. right. left. now exists f. }
  destruct (s <? 0)%float eqn:Hs.
  { cbn. split; [intros _|reflexivity]. right. left. right. right. now exists s. }
  destruct (l <? 0)%float eqn:Hl.
  { cbn. split; [intros _|reflexivity]. right. left. left. now exists l. }
  cbn [orb].
  destruct (DMS.find_rate_for d category (Py.Num f) s) as [r|e] eqn:Hr; cbn.
  - split; [discriminate|].
    intros [[?|[?|?]]|[[(x & [= <-] & Hx)|[(x & [= <-] & Hx)|(x & [= <-] & Hx)]]
                      |(f' & s' & [= <-] & [= <-] & Hx)]]; try discriminate; try congruence.
    rewrite Hr in Hx. discriminate.
  - split; [intros _|reflexivity]. right. right. exists f, s. rewrite Hr. auto.
Qed.

Lemma find_rate_for_raises_on (d : db) (category : string) (fat snf : float) (e : Py.exn) :
  round_tenth fat = Py.Raise e ->
  rate_lookup_raises d category (Py.Num fat) (Py.Num snf).
Proof.
  intros Hround. exists fat, snf. split; [reflexivity|]. split; [reflexivity|].
  unfold DMS.find_rate_for. cbn [Py.float_of]. now rewrite Hround.
Qed.

(** C9, amended: [record_milk_late] returns [False], and then leaves
    every table as it was, exactly when the farmer code is unknown, the
    date string matches no accepted format, litres, fat or snf is no
    number or is below zero, or the rate lookup raises, as it does on a
    fat that is NaN or infinite; in all other cases it returns
    [True]. *)
Theorem record_milk_late_fails_iff :
  forall (d : db) (code : Z) (date_str shift : string)
    (litres fat snf : Py.numarg) (category : string),
    let out :=
      DMS.record_milk_late fromisoformat d code date_str shift litres fat snf category in
    (fst out = false <->
       listed_reason fromisoformat d code date_str litres fat snf \/
       rate_lookup_raises d category fat snf) /\
    (fst out = true <->
       ~ (listed_reason fromisoformat d code date_str litres fat snf \/
          rate_lookup_raises d category fat snf)) /\
    (fst out = false -> snd out = d) /\
    (forall s : float,
        rate_lookup_raises d category (Py.Num nan) (Py.Num s) /\
        rate_lookup_raises d category (Py.Num infinity) (Py.Num s) /\
        rate_lookup_raises d category (Py.Num neg_infinity) (Py.Num s)).
Proof.
  intros d code date_str shift litres fat snf category out.
  assert (Hunchanged : fst out = false -> snd out = d).
  { intros Hf. apply (@record_milk_late_false d code date_str shift litres fat snf category).
    rewrite <- Hf. subst out. now destruct (DMS.record_milk_late _ _ _ _ _ _ _ _ _). }
  enough (Hiff : fst out = false <->
                 listed_reason fromisoformat d code date_str litres fat snf \/
                 rate_lookup_raises d category fat snf).
  { split; [assumption|]. split; [|split; [assumption|]].
    - rewrite <- Hiff. destruct (fst out); split; congruence.
    - intros s. repeat split.
      + now apply find_rate_for_raises_on with (e := Py.ValueError).
      + now apply find_rate_for_raises_on with (e := Py.OverflowError).
      + now apply find_rate_for_raises_on with (e := Py.OverflowError). }
  clear Hunchanged. subst out. unfold listed_reason, DMS.record_milk_late.
  pose proof (validate_and_price_raises d litres fat snf category) as Hv.
  destruct (DMS.normalize_date_input fromisoformat date_str) as [date_db|]; cbn [fst Py.raises].
  2:{ split; auto. }
  destruct (existsb _ (farmers d)) eqn:Hfarmer; cbn [negb fst].
  2:{ split; auto. }
  destruct (DMS.validate_and_price d litres fat snf category)
    as [[[[[l f] s] rate] amount]|]; cbn [fst Py.raises] in *.
  - destruct (existsb _ (milk_records d)); cbn [fst].
    + split; [discriminate|]. intros [[?|[?|[?|?]]]|?]; try discriminate;
        exfalso; apply Bool.diff_false_true; apply Hv; auto.
    + split; [discriminate|]. intros [[?|[?|[?|?]]]|?]; try discriminate;
        exfalso; apply Bool.diff_false_true; apply Hv; auto.
  - split; [intros _|reflexivity].
    destruct (proj1 Hv eq_refl) as [?|[?|?]]; auto.
Qed.

End LateEntries.

(** C4 on the small dairy: ten litres at fat 4.0, snf 8.5 for the entry
    already recorded. *)
Lemma record_milk_late_stores_rate_and_amount_witness :
  exists (date_db : string) (l f s rate : float),
    DMS.normalize_date_input no_iso "05/01/2024" = Py.Ok date_db /\
    Py.Num 10%float = Py.Num l /\ Py.Num 4%float = Py.Num f /\
    Py.Num 8.5%float = Py.Num s /\
    DMS.find_rate_for small_dairy "Cow" (Py.Num f) s = Py.Ok rate /\
    (exists r,
        In r (milk_records (snd (DMS.record_milk_late no_iso small_dairy 1 "05/01/2024"
                "Morning" (Py.Num 10%float) (Py.Num 4%float) (Py.Num 8.5%float) "Cow"))) /\
        entry_key r = (1, date_db, "Morning"%string, "Cow"%string)) /\
    (forall r,
        In r (milk_records (snd (DMS.record_milk_late no_iso small_dairy 1 "05/01/2024"
                "Morning" (Py.Num 10%float) (Py.Num 4%float) (Py.Num 8.5%float) "Cow"))) ->
        entry_key r = (1, date_db, "Morning"%string, "Cow"%string) ->
        mr_rate r = Sqlite.bind_real rate /\
        mr_amount r = Sqlite.bind_real (Py.round2 (l * rate)%float)) /\
    (forall r,
        In r (milk_records (snd (DMS.record_milk_late no_iso small_dairy 1 "05/01/2024"
                "Morning" (Py.Num 10%float) (Py.Num 4%float) (Py.Num 8.5%float) "Cow"))) ->
        entry_key r <> (1, date_db, "Morning"%string, "Cow"%string) ->
        In r (milk_records small_dairy)).
Proof.
  apply (@record_milk_late_stores_rate_and_amount no_iso small_dairy 1 "05/01/2024"
           "Morning" (Py.Num 10%float) (Py.Num 4%float) (Py.Num 8.5%float) "Cow").
  vm_compute. reflexivity.
Defined.


(** C9, as stated, fails: with a known farmer, an accepted date and
    three numbers that [float] reads and that are not below zero, the
    call on a NaN fat still returns [False]. *)
Lemma record_milk_late_nan_fat_returns_false :
  fst (DMS.record_milk_late no_iso small_dairy 1 "05/01/2024" "Morning"
         (Py.Num 10%float) (Py.Num nan) (Py.Num 8%float) "Cow") = false /\
  ~ listed_reason no_iso small_dairy 1 "05/01/2024"
      (Py.Num 10%float) (Py.Num nan) (Py.Num 8%float).
Proof.
  split; [vm_compute; reflexivity|].
  unfold listed_reason, not_a_number, negative.
  intros [H|[H|[[H|[H|H]]|[(x & [= <-] & H)|[(x & [= <-] & H)|(x & [= <-] & H)]]]]];
    vm_compute in H; discriminate.
Qed.

(** ** Rate lookup *)

Lemma SFltb_irrefl (a : spec_float) : SFltb a a = false.
Proof.
  unfold SFltb, SFcompare.
  destruct a as [s|s| |s m e]; try reflexivity.
  - now destruct s.
  - destruct s; rewrite Z.compare_refl, Pos.compare_cont_refl; reflexivity.
Qed.

Ltac cmp_cases :=
  repeat match goal with
  | |- context [Z.compare ?a ?b] => destruct (Z.compare_spec a b)
  | |- context [Pos.compare_cont Eq ?a ?b] =>
      change (Pos.compare_cont Eq a b) with (Pos.compare a b);
      destruct (Pos.compare_spec a b)
  end.

Lemma SFltb_trans (a b c : spec_float) :
  SFltb a b = true -> SFltb b c = true -> SFltb a c = true.
Proof.
  unfold SFltb, SFcompare.
  destruct a as [sa|sa| |sa ma ea], b as [sb|sb| |sb mb eb], c as [sc|sc| |sc mc ec];
    try discriminate; try reflexivity;
    try (destruct sa; try discriminate; try reflexivity);
    try (destruct sb; try discriminate; try reflexivity);
    try (destruct sc; try discriminate; try reflexivity);
    cmp_cases; simpl; intros; subst; try discriminate; try reflexivity; try lia.
Qed.

Lemma float_ltb_irrefl (x : float) : (x <? x)%float = false.
Proof. rewrite ltb_spec. apply SFltb_irrefl. Qed.

Lemma float_ltb_trans (x y z : float) :
  (x <? y)%float = true -> (y <? z)%float = true -> (x <? z)%float = true.
Proof. rewrite !ltb_spec. apply SFltb_trans. Qed.

Lemma sql_lt_irrefl (a : Sqlite.real) : Sqlite.lt a a = false.
Proof. destruct a; [apply float_ltb_irrefl|reflexivity]. Qed.

Lemma sql_lt_trans (a b c : Sqlite.real) :
  Sqlite.lt a b = true -> Sqlite.lt b c = true -> Sqlite.lt a c = true.
Proof.
  destruct a, b, c; simpl; try discriminate; try reflexivity.
  apply float_ltb_trans.
Qed.

Lemma fold_least (key : rate_row -> Sqlite.real) (rs : list rate_row) :
  forall best seen,
    In best seen ->
    (forall r', In r' seen -> Sqlite.lt (key r') (key best) = false) ->
    closest key (seen ++ rs)
      (fold_left (fun b r' => if Sqlite.lt (key r') (key b) then r' else b) rs best).
Proof.
  induction rs as [|r rs IH]; intros best seen Hin Hmin; simpl.
  - rewrite app_nil_r. now split.
  - replace (seen ++ r :: rs) with ((seen ++ [r]) ++ rs) by now rewrite <- app_assoc.
    destruct (Sqlite.lt (key r) (key best)) eqn:Hlt; apply IH.
    + apply in_app_iff. right. now left.
    + intros r' Hr'. apply in_app_iff in Hr'. destruct Hr' as [Hr'|[<-|[]]].
      * destruct (Sqlite.lt (key r') (key r)) eqn:Hlt'; [|reflexivity].
        rewrite <- (Hmin r' Hr'). symmetry. now apply sql_lt_trans with (b := key r).
      * apply sql_lt_irrefl.
    + apply in_app_iff. now left.
    + intros r' Hr'. apply in_app_iff in Hr'. destruct Hr' as [Hr'|[<-|[]]]; auto.
Qed.

Lemma first_by_closest (key : rate_row -> Sqlite.real) (rows : list rate_row) :
  match Sqlite.first_by key rows with
  | Some r => closest key rows r
  | None => rows = []
  end.
Proof.
  destruct rows as [|r rs]; simpl; [reflexivity|].
  apply (@fold_least key rs r [r]).
  - now left.
  - intros r' [<-|[]]. apply sql_lt_irrefl.
Qed.

Lemma slab_rows_of_category (t : list rate_row) (cat : string) (fat_r : float) :
  category_rows t cat = [] -> slab_rows t cat fat_r = [].
Proof.
  unfold category_rows, slab_rows. induction t as [|r t IH]; simpl; [reflexivity|].
  destruct (String.eqb (rt_category r) cat); simpl; [discriminate|assumption].
Qed.

Lemma lookup_three_stages (t : list rate_row) (category : string)
  (fat fat_r snf : float) :
  three_stages t category fat fat_r snf
    match Sqlite.first_by (snf_distance snf) (slab_rows t category fat_r) with
    | Some row => round_rate row
    | None =>
        match Sqlite.first_by (fat_distance fat_r) (category_rows t category) with
        | Some row => round_rate row
        | None =>
            Py.Ok (Py.round2 (Py.max 0%float
              (snd (base_slab category) + (fat - fst (base_slab category)) * 5)%float))
        end
    end.
Proof.
  pose proof (first_by_closest (snf_distance snf) (slab_rows t category fat_r)) as H1.
  pose proof (first_by_closest (fat_distance fat_r) (category_rows t category)) as H2.
  unfold three_stages.
  destruct (Sqlite.first_by (snf_distance snf) (slab_rows t category fat_r)) as [r1|].
  - split; [intros _; now exists r1|]. split.
    + intros Hnil. destruct H1 as (Hin & _). rewrite Hnil in Hin. destruct Hin.
    + intros Hnil. destruct H1 as (Hin & _).
      rewrite (slab_rows_of_category _ _ fat_r Hnil) in Hin. destruct Hin.
  - split; [intros Hne; now elim Hne|].
    destruct (Sqlite.first_by (fat_distance fat_r) (category_rows t category)) as [r2|].
    + split; [intros _ _; now exists r2|].
      intros Hnil. destruct H2 as (Hin & _). rewrite Hnil in Hin. destruct Hin.
    + split; [intros _ Hne; now elim Hne|reflexivity].
Qed.




(** ** Monthly bill *)

Section MonthlyBill.

Variable sqlite_strftime_Ym : string -> option string.

(** What [generate_and_save] guarantees on every input: the deductions
    table is left as it was or gets one row, and then neither guard
    fired ([ded < 0] and [ded > balance] are both false); a saved bill
    shows the month's earnings of the farmer, the deduction entered and
    [round(earnings - deduction, 2)] as net payable. *)
Theorem generate_and_save_guards :
  forall (d : db) (today code_txt month : string) (ded_txt : Py.numarg)
    (confirm pdf_ok : bool),
    let out :=
      DMS.generate_and_save sqlite_strftime_Ym d today code_txt month ded_txt
        confirm pdf_ok in
    let code := Py.int_of (Py.strip code_txt) in
    (snd out = d \/
     exists ded : float,
       ded_txt = Py.Num ded /\
       (ded <? 0)%float = false /\
       (DMS.get_advance_balance d code (Some month) <? ded)%float = false /\
       snd out =
         set_advance_deductions d
           (advance_deductions d ++
            [mkdeduction code today month (Sqlite.bind_real ded)
               ("User deduction for " ++ month)%string])) /\
    (forall b : DMS.bill,
        fst out = DMS.BillSaved b ->
        DMS.b_earnings b = DMS.monthly_earnings sqlite_strftime_Ym d code month /\
        ded_txt = Py.Num (DMS.b_deducted b) /\
        DMS.b_net b = Py.round2 (DMS.b_earnings b - DMS.b_deducted b)%float).
Proof.
  intros d today code_txt month ded_txt confirm pdf_ok out code.
  subst out. unfold DMS.generate_and_save. fold code.
  destruct (negb (Py.isdigit (Py.strip code_txt))).
  { split; [now left|discriminate]. }
  destruct ded_txt as [ded|]; cbn [Py.float_of].
  2:{ split; [now left|discriminate]. }
  destruct (ded <? 0)%float eqn:Hneg.
  { split; [now left|discriminate]. }
  destruct (DMS.get_advance_balance d code (Some month) <? ded)%float eqn:Hbal.
  { split; [now left|discriminate]. }
  destruct ((DMS.monthly_earnings sqlite_strftime_Ym d code month <? ded)%float && negb confirm).
  { split; [now left|discriminate]. }
  cbn [DMS.record_advance_deduction negb].
  destruct pdf_ok; cbn [fst snd].
  - split; [right; now exists ded|].
    intros b [= <-]. cbn. auto.
  - split; [right; now exists ded|discriminate].
Qed.

End MonthlyBill.

(** C3, in the code: a deduction entered as the text nan is read by
    [float] as a NaN, which is neither below zero nor above the balance
    of 500, so both guards pass; a deduction row (amount NULL) is
    inserted and the bill is saved, although the deduction is not a
    nonnegative number. *)
Lemma generate_and_save_nan_deduction :
  DMS.get_advance_balance dairy_with_advance 1 (Some "2024-01"%string) = 500%float /\
  (0 <=? nan)%float = false /\
  (nan <=? 500)%float = false /\
  DMS.generate_and_save stored_month dairy_with_advance "2024-02-01" "1" "2024-01"
    (Py.Num nan) true true =
  (DMS.BillSaved (DMS.mkbill 1 "2024-01" 280%float nan nan),
   set_advance_deductions dairy_with_advance
     [mkdeduction 1 "2024-02-01" "2024-01" None "User deduction for 2024-01"]).
Proof.
  repeat split; vm_compute; reflexivity.
Qed.

(** The guards on the dairy with an advance: a deduction of 120 for
    January 2024 is recorded and the bill shows 160. *)
Lemma generate_and_save_guards_witness :
  DMS.generate_and_save stored_month dairy_with_advance "2024-02-01" "1" "2024-01"
    (Py.Num 120%float) true true =
  (DMS.BillSaved (DMS.mkbill 1 "2024-01" 280%float 120%float 160%float),
   set_advance_deductions dairy_with_advance
     [mkdeduction 1 "2024-02-01" "2024-01" (Some 120%float) "User deduction for 2024-01"]) /\
  DMS.b_net (DMS.mkbill 1 "2024-01" 280%float 120%float 160%float) =
    Py.round2 (280 - 120)%float.
Proof.
  assert (H : DMS.generate_and_save stored_month dairy_with_advance "2024-02-01" "1"
                "2024-01" (Py.Num 120%float) true true =
              (DMS.BillSaved (DMS.mkbill 1 "2024-01" 280%float 120%float 160%float),
               set_advance_deductions dairy_with_advance
                 [mkdeduction 1 "2024-02-01" "2024-01" (Some 120%float)
                    "User deduction for 2024-01"])) by (vm_compute; reflexivity).
  split; [exact H|].
  apply (proj2 (@generate_and_save_guards stored_month dairy_with_advance "2024-02-01"
                  "1" "2024-01" (Py.Num 120%float) true true)
           (DMS.mkbill 1 "2024-01" 280%float 120%float 160%float)).
  rewrite H. reflexivity.
Defined.

(** ** Date normalization *)

Lemma digit_range (k : Z) :
  0 <= k <= 9 -> k = 0 \/ k = 1 \/ k = 2 \/ k = 3 \/ k = 4 \/ k = 5 \/ k = 6 \/ k = 7 \/ k = 8 \/ k = 9.
Proof. lia. Qed.

Lemma day_range (n : Z) :
  1 <= n <= 31 ->
  n = 1 \/ n = 2 \/ n = 3 \/ n = 4 \/ n = 5 \/ n = 6 \/ n = 7 \/ n = 8 \/ n = 9 \/ n = 10 \/ n = 11 \/ n = 12 \/ n = 13 \/ n = 14 \/ n = 15 \/ n = 16 \/ n = 17 \/ n = 18 \/ n = 19 \/ n = 20 \/ n = 21 \/ n = 22 \/ n = 23 \/ n = 24 \/ n = 25 \/ n = 26 \/ n = 27 \/ n = 28 \/ n = 29 \/ n = 30 \/ n = 31.
Proof. lia. Qed.

Ltac each_case H :=
  repeat (destruct H as [H|H]; [subst|]); subst.

Lemma digit_val_digit_char (k : Z) :
  0 <= k <= 9 -> Py.digit_val (Datetime.digit_char k) = Some k.
Proof.
  intros Hk. apply digit_range in Hk. each_case Hk; reflexivity.
Qed.

Lemma digit_char_not_space (k : Z) :
  0 <= k <= 9 -> Py.isspace (Datetime.digit_char k) = false.
Proof.
  intros Hk. apply digit_range in Hk. each_case Hk; reflexivity.
Qed.

Lemma separator_not_digit (c : ascii) (k : Z) :
  Py.is_digit c = false -> 0 <= k <= 9 -> Ascii.eqb c (Datetime.digit_char k) = false.
Proof.
  intros Hc Hk. destruct (Ascii.eqb_spec c (Datetime.digit_char k)) as [->|]; [|reflexivity].
  unfold Py.is_digit in Hc. now rewrite digit_val_digit_char in Hc.
Qed.

Lemma digit_not_separator (c c' : ascii) :
  Py.is_digit c = false -> Py.is_digit c' = true -> Ascii.eqb c c' = false.
Proof.
  intros Hc Hc'. destruct (Ascii.eqb_spec c c') as [->|]; [congruence|reflexivity].
Qed.

Lemma cand_d_two_digits (n : Z) (rest : string) :
  1 <= n <= 31 ->
  Datetime.cand_d (Datetime.two_digits n ++ rest) =
    (n, rest) ::
    (if 10 <=? n
     then [(n / 10, String (Datetime.digit_char (n mod 10)) rest)]
     else []).
Proof.
  intros Hn. apply day_range in Hn. each_case Hn; reflexivity.
Qed.

Lemma cand_m_two_digits (n : Z) (rest : string) :
  1 <= n <= 12 ->
  Datetime.cand_m (Datetime.two_digits n ++ rest) =
    (n, rest) ::
    (if 10 <=? n
     then [(n / 10, String (Datetime.digit_char (n mod 10)) rest)]
     else []).
Proof.
  intros Hn. assert (H : 1 <= n <= 31) by lia. apply day_range in H.
  each_case H; try lia; reflexivity.
Qed.

Lemma four_digits_value (y : Z) :
  0 <= y <= 9999 ->
  1000 * (y / 1000 mod 10) + 100 * (y / 100 mod 10) + 10 * (y / 10 mod 10) + y mod 10 = y.
Proof.
  intros Hy. Z.div_mod_to_equations. lia.
Qed.

Lemma cand_Y_four_digits (y : Z) (rest : string) :
  0 <= y <= 9999 ->
  Datetime.cand_Y (Datetime.four_digits y ++ rest) = [(y, rest)].
Proof.
  intros Hy. unfold Datetime.four_digits, Datetime.two_digits. cbn [append Datetime.cand_Y].
  rewrite !digit_val_digit_char
    by (match goal with |- 0 <= ?a mod 10 <= 9 =>
          pose proof (Z.mod_pos_bound a 10 ltac:(lia)); lia end).
  now rewrite four_digits_value.
Qed.

Section Matching.

Import Datetime.

Variable sep : ascii.
Hypothesis sep_not_digit : Py.is_digit sep = false.

(** A day on two digits and a separator: the matcher reads the day and
    goes on behind the separator when it is the format's. *)
Lemma re_match_day (n : Z) (c : ascii) (fmt : list directive) (d0 : date) (rest : string) :
  1 <= n <= 31 ->
  re_match (Dd :: Lit sep :: fmt) d0 (two_digits n ++ String c rest) =
    if Ascii.eqb sep c then re_match fmt (set_field Dd n d0) rest else [].
Proof.
  intros Hn. cbn [re_match]. rewrite cand_d_two_digits by assumption.
  destruct (10 <=? n); cbn [flat_map fst snd app].
  - rewrite (separator_not_digit _ sep_not_digit) by (pose proof (Z.mod_pos_bound n 10 ltac:(lia)); lia).
    now rewrite !app_nil_r.
  - now rewrite app_nil_r.
Qed.

Lemma re_match_month (n : Z) (c : ascii) (fmt : list directive) (d0 : date) (rest : string) :
  1 <= n <= 12 ->
  re_match (Dm :: Lit sep :: fmt) d0 (two_digits n ++ String c rest) =
    if Ascii.eqb sep c then re_match fmt (set_field Dm n d0) rest else [].
Proof.
  intros Hn. cbn [re_match]. rewrite cand_m_two_digits by assumption.
  destruct (10 <=? n); cbn [flat_map fst snd app].
  - rewrite (separator_not_digit _ sep_not_digit) by (pose proof (Z.mod_pos_bound n 10 ltac:(lia)); lia).
    now rewrite !app_nil_r.
  - now rewrite app_nil_r.
Qed.

Lemma re_match_year (y : Z) (c : ascii) (fmt : list directive) (d0 : date) (rest : string) :
  0 <= y <= 9999 ->
  re_match (DY :: Lit sep :: fmt) d0 (four_digits y ++ String c rest) =
    if Ascii.eqb sep c then re_match fmt (set_field DY y d0) rest else [].
Proof.
  intros Hy. cbn [re_match]. rewrite cand_Y_four_digits by assumption.
  cbn [flat_map fst snd app]. now rewrite app_nil_r.
Qed.

(** A text that goes on with two digits behind its first character is
    no day followed by the separator. *)
Lemma re_match_day_in_digits (c1 c2 c3 : ascii) (fmt : list directive) (d0 : date)
  (rest : string) :
  Py.is_digit c2 = true -> Py.is_digit c3 = true ->
  re_match (Dd :: Lit sep :: fmt) d0 (String c1 (String c2 (String c3 rest))) = [].
Proof.
  intros H2 H3.
  pose proof (@digit_not_separator sep c2 sep_not_digit H2) as E2.
  pose proof (@digit_not_separator sep c3 sep_not_digit H3) as E3.
  cbn [re_match]. unfold cand_d, two_char, one_char.
  destruct (pair_in 3 3 0 1 c1 c2), (pair_in 1 2 0 9 c1 c2), (pair_in 0 0 1 9 c1 c2),
    (digit_in 1 9 c1), (space_then 1 9 c1 c2);
    cbn [flat_map fst snd app re_match]; rewrite ?E2, ?E3; reflexivity.
Qed.

End Matching.

Lemma valid_date_bounds (d : Datetime.date) :
  Datetime.valid_date d = true ->
  1 <= Datetime.year d <= 9999 /\ 1 <= Datetime.month d <= 12 /\
  1 <= Datetime.day d <= 31.
Proof.
  unfold Datetime.valid_date, Datetime.days_in_month.
  rewrite !andb_true_iff, !Z.leb_le. intros (((((Hy1 & Hy2) & Hm1) & Hm2) & Hd1) & Hd2).
  repeat split; try assumption.
  destruct (Datetime.month d =? 2);
    [destruct (Datetime.is_leap (Datetime.year d)); lia|].
  destruct ((Datetime.month d =? 4) || (Datetime.month d =? 6) ||
            (Datetime.month d =? 9) || (Datetime.month d =? 11)); lia.
Qed.

Lemma rstrip_id (s : string) : ends_nonspace s = true -> Py.rstrip s = s.
Proof.
  induction s as [|c r IH]; [discriminate|].
  destruct r as [|c' r'].
  - cbn. destruct (Py.isspace c); [discriminate|reflexivity].
  - intros H. change (ends_nonspace (String c (String c' r'))) with
      (ends_nonspace (String c' r')) in H.
    specialize (IH H).
    change (Py.rstrip (String c (String c' r'))) with
      (match Py.rstrip (String c' r') with
       | EmptyString => if Py.isspace c then EmptyString else String c EmptyString
       | String a b => String c (String a b)
       end).
    now rewrite IH.
Qed.

Lemma strip_id (c : ascii) (r : string) :
  Py.isspace c = false -> ends_nonspace (String c r) = true ->
  Py.strip (String c r) = String c r.
Proof.
  intros Hc He. unfold Py.strip. cbn [Py.lstrip]. rewrite Hc. now apply rstrip_id.
Qed.

Section RoundTrip.

Import Datetime.

Variable d : date.
Hypothesis d_valid : valid_date d = true.

Lemma strip_formatted_dmy (c : ascii) :
  Py.strip (strftime d (fmt_dmy c)) = strftime d (fmt_dmy c).
Proof.
  destruct (valid_date_bounds d d_valid) as (Hy & Hm & Hd).
  unfold fmt_dmy. cbn [strftime strftime_item append two_digits four_digits].
  apply strip_id.
  - apply digit_char_not_space.
    pose proof (Z.mod_pos_bound (day d / 10) 10 ltac:(lia)). lia.
  - cbn [ends_nonspace]. rewrite digit_char_not_space; [reflexivity|].
    pose proof (Z.mod_pos_bound (year d) 10 ltac:(lia)). lia.
Qed.

Lemma strip_formatted_ymd (c : ascii) :
  Py.strip (strftime d (fmt_ymd c)) = strftime d (fmt_ymd c).
Proof.
  destruct (valid_date_bounds d d_valid) as (Hy & Hm & Hd).
  unfold fmt_ymd. cbn [strftime strftime_item append two_digits four_digits].
  apply strip_id.
  - apply digit_char_not_space.
    pose proof (Z.mod_pos_bound (year d / 1000) 10 ltac:(lia)). lia.
  - cbn [ends_nonspace]. rewrite digit_char_not_space; [reflexivity|].
    pose proof (Z.mod_pos_bound (day d) 10 ltac:(lia)). lia.
Qed.

Lemma strptime_dmy (sep c : ascii) :
  Py.is_digit sep = false ->
  strptime (strftime d (fmt_dmy c)) (fmt_dmy sep) =
    if Ascii.eqb sep c then Py.Ok d else Py.Raise Py.ValueError.
Proof.
  intros Hsep. destruct (valid_date_bounds d d_valid) as (Hy & Hm & Hd).
  unfold strptime, fmt_dmy. cbn [strftime strftime_item append].
  rewrite (@re_match_day sep Hsep) by assumption.
  destruct (Ascii.eqb sep c) eqn:E; [|reflexivity].
  rewrite (@re_match_month sep Hsep) by assumption. rewrite E.
  cbn [re_match]. rewrite cand_Y_four_digits by lia.
  cbn [flat_map fst snd app re_match set_field year month day].
  destruct d as [y m dd]. cbn [year month day] in *. now rewrite d_valid.
Qed.

Lemma strptime_ymd (sep c : ascii) :
  Py.is_digit sep = false ->
  strptime (strftime d (fmt_ymd c)) (fmt_ymd sep) =
    if Ascii.eqb sep c then Py.Ok d else Py.Raise Py.ValueError.
Proof.
  intros Hsep. destruct (valid_date_bounds d d_valid) as (Hy & Hm & Hd).
  unfold strptime, fmt_ymd. cbn [strftime strftime_item append].
  rewrite (@re_match_year sep) by lia.
  destruct (Ascii.eqb sep c) eqn:E; [|reflexivity].
  rewrite (@re_match_month sep Hsep) by assumption. rewrite E.
  cbn [re_match]. rewrite cand_d_two_digits by assumption.
  cbn [flat_map fst snd app re_match set_field year month day].
  destruct d as [y m dd]. cbn [year month day] in *. now rewrite d_valid.
Qed.

Lemma strptime_dmy_on_ymd (sep c : ascii) :
  Py.is_digit sep = false ->
  strptime (strftime d (fmt_ymd c)) (fmt_dmy sep) = Py.Raise Py.ValueError.
Proof.
  intros Hsep. destruct (valid_date_bounds d d_valid) as (Hy & Hm & Hd).
  unfold strptime, fmt_ymd, fmt_dmy.
  cbn [strftime strftime_item append four_digits two_digits].
  rewrite (@re_match_day_in_digits sep Hsep); [reflexivity| |];
    unfold Py.is_digit; rewrite digit_val_digit_char; try reflexivity.
  - pose proof (Z.mod_pos_bound (year d / 100) 10 ltac:(lia)). lia.
  - pose proof (Z.mod_pos_bound (year d / 10) 10 ltac:(lia)). lia.
Qed.

End RoundTrip.

Section Normalize.

Variable fromisoformat : string -> option Datetime.date.

Lemma normalize_date_input_parsed (s out : string) :
  s <> EmptyString -> Py.strip s = s ->
  DMS.try_formats s DMS.fmts = Some out ->
  DMS.normalize_date_input fromisoformat s = Py.Ok out.
Proof.
  intros Hs Hstrip Htry. unfold DMS.normalize_date_input.
  destruct s as [|c r]; [now elim Hs|]. now rewrite Hstrip, Htry.
Qed.

Lemma normalize_date_input_unparsed (s : string) :
  (forall f, In f DMS.fmts -> Py.raises (Datetime.strptime (Py.strip s) f) = true) ->
  fromisoformat (Py.strip s) = None ->
  DMS.normalize_date_input fromisoformat s = Py.Raise Py.ValueError.
Proof.
  intros Hall Hiso. unfold DMS.normalize_date_input.
  destruct s as [|c r]; [reflexivity|].
  assert (Htry : forall fs, (forall f, In f fs -> In f DMS.fmts) ->
                            DMS.try_formats (Py.strip (String c r)) fs = None).
  { induction fs as [|f fs IH]; intros Hsub; [reflexivity|].
    cbn [DMS.try_formats].
    specialize (Hall f (Hsub f (or_introl eq_refl))).
    destruct (Datetime.strptime (Py.strip (String c r)) f); [discriminate|].
    apply IH. intros g Hg. apply Hsub. now right. }
  rewrite (Htry DMS.fmts) by auto. now rewrite Hiso.
Qed.

Lemma formatted_dmy_nonempty (d : Datetime.date) (c : ascii) :
  Datetime.strftime d (fmt_dmy c) <> EmptyString.
Proof. discriminate. Qed.

Lemma formatted_ymd_nonempty (d : Datetime.date) (c : ascii) :
  Datetime.strftime d (fmt_ymd c) <> EmptyString.
Proof. discriminate. Qed.


End Normalize.


(** ** The rate lookup across versions and tables *)

Lemma find_rate_for_frame (d1 d2 : db) (category : string) (fat : Py.numarg) (snf : float) :
  rate_table d1 = rate_table d2 ->
  DMS.find_rate_for d1 category fat snf = DMS.find_rate_for d2 category fat snf.
Proof. intros H. unfold DMS.find_rate_for. now rewrite H. Qed.

Lemma validate_and_price_frame (d1 d2 : db) (litres fat snf : Py.numarg) (category : string) :
  rate_table d1 = rate_table d2 ->
  DMS.validate_and_price d1 litres fat snf category =
  DMS.validate_and_price d2 litres fat snf category.
Proof.
  intros H. unfold DMS.validate_and_price.
  destruct fat as [f|], snf as [s|], litres as [l|]; try reflexivity.
  cbn [Py.float_of Py.bind].
  now rewrite (find_rate_for_frame d1 d2 category (Py.Num f) s H).
Qed.

(** X2: the rate lookups of the two applications agree: on a category
    that is not empty they return the same result for the same fat and
    snf over the same rate table, and on the empty category [DMS.py]
    answers as v5.5 does for [Cow]. Either lookup reads the rate table
    only. *)
Theorem find_rate_for_versions_agree :
  forall (d : db) (category : string) (fat snf : float),
    DMS.find_rate_for d category (Py.Num fat) snf =
      Ganesh.find_rate_for d (DMS.default_category category) fat snf /\
    (category <> EmptyString ->
     DMS.find_rate_for d category (Py.Num fat) snf = Ganesh.find_rate_for d category fat snf) /\
    (forall d' : db,
        rate_table d' = rate_table d ->
        DMS.find_rate_for d' category (Py.Num fat) snf =
          DMS.find_rate_for d category (Py.Num fat) snf /\
        Ganesh.find_rate_for d' category fat snf = Ganesh.find_rate_for d category fat snf).
Proof.
  intros d category fat snf.
  assert (Hsame : DMS.find_rate_for d category (Py.Num fat) snf =
                  Ganesh.find_rate_for d (DMS.default_category category) fat snf)
    by reflexivity.
  split; [exact Hsame|]. split.
  - intros Hne. rewrite Hsame. destruct category; [now elim Hne|reflexivity].
  - intros d' Ht. split; [now apply find_rate_for_frame|].
    unfold Ganesh.find_rate_for. now rewrite Ht.
Qed.

(** ** Late entries, repeated *)

Section LateEntriesAgain.

Variable fromisoformat : string -> option Datetime.date.

Lemma upsert_has_key (rows : list milk_record) (code : Z) (date_db shift : string)
  (l f s rate : float) (category : string) :
  existsb (DMS.same_entry code date_db shift category)
    (upsert rows code date_db shift l f s rate category) = true.
Proof.
  unfold upsert.
  destruct (existsb (DMS.same_entry code date_db shift category) rows) eqn:Hex.
  - apply existsb_exists in Hex. destruct Hex as (r & Hin & Hsame).
    apply existsb_exists.
    exists (DMS.update_entry l f s rate (Py.round2 (l * rate)%float) r). split.
    + apply in_map_iff. exists r. now rewrite Hsame.
    + apply same_entry_key. rewrite update_entry_key. now apply same_entry_key.
  - rewrite existsb_app. cbn [existsb]. apply orb_true_iff. right.
    apply orb_true_iff. left. now apply same_entry_key.
Qed.

Lemma upsert_settled (rows : list milk_record) (code : Z) (date_db shift : string)
  (l f s rate : float) (category : string) :
  map (fun r => if DMS.same_entry code date_db shift category r
                then DMS.update_entry l f s rate (Py.round2 (l * rate)%float) r
                else r)
    (upsert rows code date_db shift l f s rate category) =
  upsert rows code date_db shift l f s rate category.
Proof.
  unfold upsert.
  destruct (existsb (DMS.same_entry code date_db shift category) rows) eqn:Hex.
  - rewrite map_map. apply map_ext. intros r.
    destruct (DMS.same_entry code date_db shift category r) eqn:Hsame.
    + change (DMS.same_entry code date_db shift category
                (DMS.update_entry l f s rate (Py.round2 (l * rate)%float) r))
        with (DMS.same_entry code date_db shift category r).
      now rewrite Hsame.
    + now rewrite Hsame.
  - rewrite map_app. cbn [map]. f_equal.
    + rewrite <- (map_id rows) at 2. apply map_ext_in. intros r Hin.
      destruct (DMS.same_entry code date_db shift category r) eqn:Hsame; [|reflexivity].
      assert (Ht : existsb (DMS.same_entry code date_db shift category) rows = true)
        by (apply existsb_exists; now exists r).
      congruence.
    + assert (Hnew : DMS.same_entry code date_db shift category
                       (DMS.new_entry code date_db shift l f s rate
                          (Py.round2 (l * rate)%float) category) = true)
        by now apply same_entry_key.
      now rewrite Hnew.
Qed.

(** X3: [record_milk_late] is idempotent and writes milk records only:
    the same call on the database it left gives the same result and
    leaves that database as it is, and no call changes the farmers, the
    advances, the rate table or the deductions. *)
Theorem record_milk_late_idempotent :
  forall (d : db) (code : Z) (date_str shift : string)
    (litres fat snf : Py.numarg) (category : string),
    let out :=
      DMS.record_milk_late fromisoformat d code date_str shift litres fat snf category in
    DMS.record_milk_late fromisoformat (snd out) code date_str shift litres fat snf category
      = out /\
    farmers (snd out) = farmers d /\
    advances (snd out) = advances d /\
    rate_table (snd out) = rate_table d /\
    advance_deductions (snd out) = advance_deductions d.
Proof.
  intros d code date_str shift litres fat snf category out.
  destruct out as [b d'] eqn:Hout. subst out. cbn [snd].
  destruct b.
  - destruct (record_milk_late_true fromisoformat _ _ _ _ _ _ _ _ Hout)
      as (date_db & l & f & s & rate & Hdate & Hfarmer & Hv & ->).
    split; [|repeat split].
    unfold DMS.record_milk_late. rewrite Hdate.
    cbn [set_milk_records farmers milk_records]. rewrite Hfarmer. cbn [negb].
    rewrite (validate_and_price_frame _ d litres fat snf category) by reflexivity.
    rewrite Hv. rewrite upsert_has_key. unfold set_milk_records at 1.
    cbn [farmers advances rate_table advance_deductions milk_records set_milk_records].
    now rewrite upsert_settled.
  - apply record_milk_late_false in Hout as Hd. subst d'.
    split; [assumption|repeat split].
Qed.

End LateEntriesAgain.

(** ** Two bills for one month *)

Lemma string_compare_refl (m : string) : String.compare m m = Eq.
Proof.
  induction m as [|a m IH]; [reflexivity|].
  cbn [String.compare]. unfold Ascii.compare. now rewrite N.compare_refl.
Qed.

Lemma string_ltb_irrefl (m : string) : String.ltb m m = false.
Proof. unfold String.ltb. now rewrite string_compare_refl. Qed.

Lemma balance_ignores_same_month (d : db) (c code : Z) (today month note : string)
  (amount : Sqlite.real) :
  month <> EmptyString ->
  DMS.get_advance_balance
    (set_advance_deductions d
       (advance_deductions d ++ [mkdeduction code today month amount note]))
    c (Some month) =
  DMS.get_advance_balance d c (Some month).
Proof.
  intros Hm. unfold DMS.get_advance_balance.
  replace (DMS.month_given (Some month)) with (Some month)
    by (destruct month; [now elim Hm|reflexivity]).
  cbn [set_advance_deductions advance_deductions advances].
  rewrite filter_app. cbn [filter dd_month dd_farmer_code].
  rewrite string_ltb_irrefl, andb_false_r. now rewrite app_nil_r.
Qed.

Section SecondBill.

Variable sqlite_strftime_Ym : string -> option string.

(** X4: a deduction booked for a month does not lower the balance that
    the bill of the same month is checked against. So generating the
    bill of a farmer and month a second time, with the same entries,
    ends as the first time, and where the first call recorded a
    deduction the second records it again. *)
Theorem generate_and_save_twice :
  forall (d : db) (today code_txt month : string) (ded_txt : Py.numarg)
    (confirm pdf_ok : bool),
    month <> EmptyString ->
    let out :=
      DMS.generate_and_save sqlite_strftime_Ym d today code_txt month ded_txt
        confirm pdf_ok in
    let again :=
      DMS.generate_and_save sqlite_strftime_Ym (snd out) today code_txt month ded_txt
        confirm pdf_ok in
    (forall c : Z,
        DMS.get_advance_balance (snd out) c (Some month) =
        DMS.get_advance_balance d c (Some month)) /\
    fst again = fst out /\
    (forall row : advance_deduction,
        advance_deductions (snd out) = advance_deductions d ++ [row] ->
        advance_deductions (snd again) = advance_deductions d ++ [row; row]).
Proof.
  intros d today code_txt month ded_txt confirm pdf_ok Hm out again.
  subst again out. unfold DMS.generate_and_save.
  set (code := Py.int_of (Py.strip code_txt)).
  assert (Hstay : forall (rows : list advance_deduction) (row : advance_deduction),
             rows = rows ++ [row] -> False).
  { intros rows row Hrow. apply (f_equal (@List.length _)) in Hrow.
    rewrite length_app in Hrow. cbn in Hrow. lia. }
  destruct (negb (Py.isdigit (Py.strip code_txt))) eqn:Hdigit; cbn [fst snd].
  { repeat split. intros row Hrow. now elim (Hstay _ _ Hrow). }
  destruct ded_txt as [ded|]; cbn [Py.float_of fst snd].
  2:{ repeat split. intros row Hrow. now elim (Hstay _ _ Hrow). }
  destruct (ded <? 0)%float eqn:Hneg; cbn [fst snd].
  { repeat split. intros row Hrow. now elim (Hstay _ _ Hrow). }
  destruct (DMS.get_advance_balance d code (Some month) <? ded)%float eqn:Hbal;
    cbn [fst snd].
  { rewrite Hbal. cbn [fst snd]. repeat split.
    intros row Hrow. now elim (Hstay _ _ Hrow). }
  destruct ((DMS.monthly_earnings sqlite_strftime_Ym d code month <? ded)%float
            && negb confirm) eqn:Hconf; cbn [fst snd].
  { rewrite Hbal, Hconf. cbn [fst snd]. repeat split.
    intros row Hrow. now elim (Hstay _ _ Hrow). }
  cbn [DMS.record_advance_deduction negb].
  assert (Hsame :
    forall c,
      DMS.get_advance_balance
        (set_advance_deductions d
           (advance_deductions d ++
            [mkdeduction code today month (Sqlite.bind_real ded)
               ("User deduction for " ++ month)%string]))
        c (Some month) = DMS.get_advance_balance d c (Some month))
    by (intros c; now apply balance_ignores_same_month).
  destruct pdf_ok; cbn [fst snd]; rewrite Hsame, Hbal;
    change (DMS.monthly_earnings sqlite_strftime_Ym
              (set_advance_deductions d
                 (advance_deductions d ++
                  [mkdeduction code today month (Sqlite.bind_real ded)
                     ("User deduction for " ++ month)%string])) code month)
      with (DMS.monthly_earnings sqlite_strftime_Ym d code month);
    rewrite Hconf; cbn [DMS.record_advance_deduction negb fst snd];
    (split; [exact Hsame|]); (split; [reflexivity|]);
    intros row Hrow; cbn [set_advance_deductions advance_deductions] in *;
    apply app_inv_head in Hrow; injection Hrow as <-;
    now rewrite <- app_assoc.
Qed.

End SecondBill.

(** X4 on the dairy with an advance of 500: the full 500 is deducted
    for January 2024, twice. *)
Lemma generate_and_save_twice_witness :
  advance_deductions
    (snd (DMS.generate_and_save stored_month
            (snd (DMS.generate_and_save stored_month dairy_with_advance "2024-02-01" "1"
                    "2024-01" (Py.Num 500%float) true true))
            "2024-02-01" "1" "2024-01" (Py.Num 500%float) true true)) =
  advance_deductions dairy_with_advance ++
  [mkdeduction 1 "2024-02-01" "2024-01" (Some 500%float) "User deduction for 2024-01";
   mkdeduction 1 "2024-02-01" "2024-01" (Some 500%float) "User deduction for 2024-01"].
Proof.
  apply (@generate_and_save_twice stored_month dairy_with_advance "2024-02-01" "1"
           "2024-01" (Py.Num 500%float) true true).
  - discriminate.
  - vm_compute. reflexivity.
Defined.

(** ** Deleting a farmer, reusing the code *)

Lemma filter_code_other (A : Type) (code : A -> Z) (c c' : Z) (l : list A) :
  c' <> c ->
  filter (fun x => code x =? c') (filter (fun x => negb (code x =? c)) l) =
  filter (fun x => code x =? c') l.
Proof.
  intros Hne. induction l as [|x l IH]; [reflexivity|]. cbn [filter].
  destruct (Z.eqb_spec (code x) c) as [Hc|Hc]; cbn [negb filter].
  - destruct (Z.eqb_spec (code x) c'); [congruence|assumption].
  - destruct (code x =? c'); now rewrite IH.
Qed.

Lemma filter_code_same (A : Type) (code : A -> Z) (p : A -> bool) (c : Z) (l : list A) :
  filter (fun x => (code x =? c) && p x) (filter (fun x => negb (code x =? c)) l) = [].
Proof.
  induction l as [|x l IH]; [reflexivity|]. cbn [filter].
  destruct (code x =? c) eqn:Hc; cbn [negb filter]; [assumption|].
  now rewrite Hc.
Qed.

Lemma filter_and_true (A : Type) (q : A -> bool) (l : list A) :
  filter (fun x => q x && true) l = filter q l.
Proof. apply filter_ext. intros x. apply andb_true_r. Qed.

Lemma balance_after_delete_other (d : db) (c c' : Z) (m : option string) :
  c' <> c ->
  DMS.get_advance_balance (DMS.delete_farmer d c) c' m = DMS.get_advance_balance d c' m.
Proof.
  intros Hne. unfold DMS.get_advance_balance, DMS.delete_farmer.
  cbn [advances advance_deductions].
  rewrite (@filter_code_other advance ad_farmer_code c c' (advances d) Hne).
  destruct (DMS.month_given m) as [mm|].
  - replace (filter (fun x => (dd_farmer_code x =? c') && String.ltb (dd_month x) mm)
               (filter (fun x => negb (dd_farmer_code x =? c)) (advance_deductions d)))
      with (filter (fun x => (dd_farmer_code x =? c') && String.ltb (dd_month x) mm)
              (advance_deductions d)); [reflexivity|].
    induction (advance_deductions d) as [|x l IH]; [reflexivity|]. cbn [filter].
    destruct (Z.eqb_spec (dd_farmer_code x) c) as [Hc|Hc]; cbn [negb filter].
    + destruct (Z.eqb_spec (dd_farmer_code x) c'); [congruence|]. cbn [andb]. exact IH.
    + destruct ((dd_farmer_code x =? c') && String.ltb (dd_month x) mm); now rewrite IH.
  - now rewrite (@filter_code_other advance_deduction dd_farmer_code c c' (advance_deductions d) Hne).
Qed.

Lemma balance_after_delete_same (d : db) (c : Z) (m : option string) :
  DMS.get_advance_balance (DMS.delete_farmer d c) c m = 0%float.
Proof.
  unfold DMS.get_advance_balance, DMS.delete_farmer.
  cbn [advances advance_deductions].
  rewrite <- (@filter_and_true advance (fun a => ad_farmer_code a =? c)).
  rewrite (@filter_code_same advance ad_farmer_code (fun _ => true)).
  destruct (DMS.month_given m) as [mm|].
  - now rewrite (@filter_code_same advance_deduction dd_farmer_code (fun x => String.ltb (dd_month x) mm)).
  - rewrite <- (@filter_and_true advance_deduction (fun x => dd_farmer_code x =? c)).
    now rewrite (@filter_code_same advance_deduction dd_farmer_code (fun _ => true)).
Qed.




(** ** What [normalize_date_input] returns *)

Section Canonical.

Variable fromisoformat : string -> option Datetime.date.

Lemma strptime_valid (s : string) (f : list Datetime.directive) (dt : Datetime.date) :
  Datetime.strptime s f = Py.Ok dt -> Datetime.valid_date dt = true.
Proof.
  unfold Datetime.strptime.
  destruct (Datetime.re_match f (Datetime.mkdate 1900 1 1) s) as [|[d0 rest] more];
    [discriminate|].
  destruct rest; [|discriminate].
  destruct (Datetime.valid_date d0) eqn:Hv; [|discriminate].
  now intros [= <-].
Qed.

Lemma try_formats_valid (s out : string) (fs : list (list Datetime.directive)) :
  DMS.try_formats s fs = Some out ->
  exists dt, Datetime.valid_date dt = true /\
             out = Datetime.strftime dt Datetime.fmt_ymd_dash.
Proof.
  induction fs as [|f fs IH]; [discriminate|]. cbn [DMS.try_formats].
  destruct (Datetime.strptime s f) as [dt|] eqn:Hp; [|assumption].
  intros [= <-]. exists dt. split; [now apply strptime_valid with (s := s) (f := f)|reflexivity].
Qed.

Lemma normalize_date_input_of_canonical (dt : Datetime.date) :
  Datetime.valid_date dt = true ->
  DMS.normalize_date_input fromisoformat (Datetime.strftime dt Datetime.fmt_ymd_dash) =
  Py.Ok (Datetime.strftime dt Datetime.fmt_ymd_dash).
Proof.
  intros Hd.
  assert (Hslash : Py.is_digit "/" = false) by reflexivity.
  assert (Hdash : Py.is_digit "-" = false) by reflexivity.
  change Datetime.fmt_ymd_dash with (fmt_ymd "-").
  apply normalize_date_input_parsed;
    [apply formatted_ymd_nonempty | now apply strip_formatted_ymd |].
  unfold DMS.fmts. cbn [DMS.try_formats].
  change Datetime.fmt_dmy_slash with (fmt_dmy "/").
  change Datetime.fmt_dmy_dash with (fmt_dmy "-").
  change Datetime.fmt_ymd_dash with (fmt_ymd "-").
  rewrite (@strptime_dmy_on_ymd dt Hd "/" "-" Hslash).
  rewrite (@strptime_dmy_on_ymd dt Hd "-" "-" Hdash).
  now rewrite (@strptime_ymd dt Hd "-" "-" Hdash).
Qed.


End Canonical.


(** ** Passwords *)

Section Passwords.

Variable hash_password : string -> string.

Lemma is_empty_false (s : string) : DMSApp.is_empty s = false -> s <> EmptyString.
Proof. destruct s; [discriminate|discriminate]. Qed.

Lemma find_after_rehash (us : list DMSApp.user) (u v newp : string) :
  find (fun x => String.eqb (DMSApp.username x) v)
    (map (fun x => if String.eqb (DMSApp.username x) u
                   then DMSApp.mkuser (DMSApp.username x) (Some (hash_password newp))
                   else x) us) =
  option_map (fun x => if String.eqb (DMSApp.username x) u
                       then DMSApp.mkuser (DMSApp.username x) (Some (hash_password newp))
                       else x)
    (find (fun x => String.eqb (DMSApp.username x) v) us).
Proof.
  induction us as [|x us IH]; [reflexivity|]. cbn [map find].
  destruct (String.eqb (DMSApp.username x) u) eqn:Hu; cbn [DMSApp.username];
    destruct (String.eqb (DMSApp.username x) v) eqn:Hv; cbn [option_map];
    rewrite ?Hu; auto.
Qed.

Lemma do_change_changed (us us' : list DMSApp.user) (u cur_e new_e conf_e : string) :
  DMSApp.do_change hash_password us u cur_e new_e conf_e = (DMSApp.PasswordChanged, us') ->
  DMSApp.is_empty (Py.strip new_e) = false /\
  (exists row, find (fun x => String.eqb (DMSApp.username x) u) us = Some row /\
               DMSApp.hash_matches hash_password row (Py.strip cur_e) = true) /\
  us' = map (fun x => if String.eqb (DMSApp.username x) u
                      then DMSApp.mkuser (DMSApp.username x)
                             (Some (hash_password (Py.strip new_e)))
                      else x) us.
Proof.
  unfold DMSApp.do_change.
  destruct (DMSApp.is_empty (Py.strip cur_e)); [discriminate|].
  destruct (DMSApp.is_empty (Py.strip new_e)); [discriminate|].
  destruct (DMSApp.is_empty (Py.strip conf_e)); [discriminate|]. cbn [orb].
  destruct (negb (String.eqb (Py.strip new_e) (Py.strip conf_e))); [discriminate|].
  destruct (find (fun x => String.eqb (DMSApp.username x) u) us) as [row|]; [|discriminate].
  destruct (DMSApp.hash_matches hash_password row (Py.strip cur_e)) eqn:Hm; [|discriminate].
  intros [= <-]. split; [reflexivity|]. split; [now exists row|reflexivity].
Qed.

(** X8: after [do_change] has changed the password of the user logged
    in, [do_login] accepts that user with the new password; it accepts
    no password for that user whose digest differs from the new one;
    the logins of all other users are as before; and a [do_change] that
    ends in an error leaves the users table as it was. The user name is
    the one [do_login] set: stripped and not empty. *)
Theorem do_change_then_do_login :
  forall (us : list DMSApp.user) (u cur_e new_e conf_e : string)
    (o : DMSApp.change_outcome) (us' : list DMSApp.user),
    u <> EmptyString -> Py.strip u = u ->
    DMSApp.do_change hash_password us u cur_e new_e conf_e = (o, us') ->
    (o <> DMSApp.PasswordChanged -> us' = us) /\
    (o = DMSApp.PasswordChanged ->
     DMSApp.do_login hash_password us' u new_e = DMSApp.LoggedIn u /\
     (forall p : string,
         DMSApp.do_login hash_password us' u p = DMSApp.LoggedIn u ->
         hash_password (Py.strip p) = hash_password (Py.strip new_e)) /\
     (forall v p : string,
         Py.strip v <> u ->
         DMSApp.do_login hash_password us' v p = DMSApp.do_login hash_password us v p) /\
     map DMSApp.username us' = map DMSApp.username us).
Proof.
  intros us u cur_e new_e conf_e o us' Hu Hstrip Hchange. split.
  - intros Ho. revert Hchange. unfold DMSApp.do_change.
    destruct (DMSApp.is_empty (Py.strip cur_e) || DMSApp.is_empty (Py.strip new_e)
              || DMSApp.is_empty (Py.strip conf_e)); [now intros [= _ <-]|].
    destruct (negb (String.eqb (Py.strip new_e) (Py.strip conf_e))); [now intros [= _ <-]|].
    destruct (find (fun x => String.eqb (DMSApp.username x) u) us) as [row|];
      [|now intros [= _ <-]].
    destruct (DMSApp.hash_matches hash_password row (Py.strip cur_e));
      [intros [= <- _]; now elim Ho|now intros [= _ <-]].
  - intros ->. destruct (do_change_changed _ _ _ _ _ Hchange) as (Hnew & (row & Hrow & _) & ->).
    assert (Hue : DMSApp.is_empty u = false) by (destruct u; [now elim Hu|reflexivity]).
    split; [|split; [|split]].
    + unfold DMSApp.do_login. rewrite Hstrip, Hue, Hnew. cbn [orb].
      rewrite find_after_rehash, Hrow. cbn [option_map].
      apply find_some in Hrow. destruct Hrow as (_ & Hname). rewrite Hname.
      unfold DMSApp.hash_matches. cbn [DMSApp.password_hash]. now rewrite String.eqb_refl.
    + intros p. unfold DMSApp.do_login. rewrite Hstrip, Hue. cbn [orb].
      destruct (DMSApp.is_empty (Py.strip p)); [discriminate|].
      rewrite find_after_rehash, Hrow. cbn [option_map].
      apply find_some in Hrow. destruct Hrow as (_ & Hname). rewrite Hname.
      unfold DMSApp.hash_matches. cbn [DMSApp.password_hash].
      destruct (String.eqb_spec (hash_password (Py.strip new_e)) (hash_password (Py.strip p)));
        [congruence|discriminate].
    + intros v p Hv. unfold DMSApp.do_login.
      destruct (DMSApp.is_empty (Py.strip v) || DMSApp.is_empty (Py.strip p)); [reflexivity|].
      rewrite find_after_rehash.
      destruct (find (fun x => String.eqb (DMSApp.username x) (Py.strip v)) us)
        as [r|] eqn:Hr; [|reflexivity].
      cbn [option_map]. apply find_some in Hr. destruct Hr as (_ & Hname).
      apply String.eqb_eq in Hname.
      destruct (String.eqb_spec (DMSApp.username r) u); [congruence|reflexivity].
    + rewrite map_map. apply map_ext. intros x.
      now destruct (String.eqb (DMSApp.username x) u).
Qed.

End Passwords.

(** X8 on a fresh installation: the admin changes admin123 to milk42. *)
Lemma do_change_then_do_login_witness :
  DMSApp.do_login tag_hash changed_users "admin" " milk42 " = DMSApp.LoggedIn "admin" /\
  (forall p : string,
      DMSApp.do_login tag_hash changed_users "admin" p = DMSApp.LoggedIn "admin" ->
      tag_hash (Py.strip p) = tag_hash (Py.strip " milk42 ")) /\
  (forall v p : string,
      Py.strip v <> "admin"%string ->
      DMSApp.do_login tag_hash changed_users v p = DMSApp.do_login tag_hash fresh_users v p) /\
  map DMSApp.username changed_users = map DMSApp.username fresh_users.
Proof.
  apply (proj2 (@do_change_then_do_login tag_hash fresh_users "admin" "admin123" " milk42 "
                  "milk42" DMSApp.PasswordChanged changed_users
                  ltac:(discriminate) ltac:(reflexivity) ltac:(vm_compute; reflexivity))
           eq_refl).
Defined.

(** ** Start-up *)

Lemma slabs_more_fuel (n k : nat) (category : string) (base_fat base_rate limit : float) :
  forall (f : float) (l : list rate_row),
    DMSApp.slabs n category base_fat base_rate limit f = Some l ->
    DMSApp.slabs (n + k) category base_fat base_rate limit f = Some l.
Proof.
  induction n as [|n IH]; intros f l; [discriminate|].
  cbn [DMSApp.slabs Nat.add].
  destruct (f <=? limit)%float; [|auto].
  destruct (DMSApp.slabs n category base_fat base_rate limit
              (DMSApp.round1 (f + DMSApp.tenth)%float)) as [rest|] eqn:Hrest;
    [|discriminate].
  now rewrite (IH _ _ Hrest).
Qed.

Lemma sample_rates_enough (fuel : nat) :
  (62 <= fuel)%nat -> DMSApp.sample_rates fuel = Some seeded_rates.
Proof.
  intros Hfuel. replace fuel with (62 + (fuel - 62))%nat by lia.
  unfold DMSApp.sample_rates.
  rewrite (@slabs_more_fuel 62 (fuel - 62) "Cow" 3%float 30%float (6 + DMSApp.nano)%float
             3%float (firstn 31 seeded_rates)) by (vm_compute; reflexivity).
  rewrite (@slabs_more_fuel 62 (fuel - 62) "Buffalo" 5%float 45%float
             (11 + DMSApp.nano)%float 5%float (skipn 31 seeded_rates))
    by (vm_compute; reflexivity).
  now rewrite firstn_skipn.
Qed.

Section StartUp.

Variable hash_password : string -> string.

Lemma find_is_admin_rehash (us : list DMSApp.user) :
  find DMSApp.is_admin
    (map (fun u => if DMSApp.is_admin u
                   then DMSApp.mkuser (DMSApp.username u) (Some (hash_password "admin123"))
                   else u) us) =
  option_map (fun u => DMSApp.mkuser (DMSApp.username u) (Some (hash_password "admin123")))
    (find DMSApp.is_admin us).
Proof.
  induction us as [|x us IH]; [reflexivity|]. cbn [map find].
  destruct (DMSApp.is_admin x) eqn:Hx.
  - unfold DMSApp.is_admin in *. cbn [DMSApp.username]. now rewrite Hx.
  - now rewrite Hx.
Qed.

Lemma find_is_admin_app (us more : list DMSApp.user) :
  find DMSApp.is_admin us = None ->
  find DMSApp.is_admin (us ++ more) = find DMSApp.is_admin more.
Proof.
  induction us as [|x us IH]; [reflexivity|]. cbn [find app].
  destruct (DMSApp.is_admin x); [discriminate|assumption].
Qed.

Lemma ensure_admin_has_admin (us : list DMSApp.user) :
  exists row h,
    find DMSApp.is_admin (DMSApp.ensure_admin hash_password us) = Some row /\
    DMSApp.password_hash row = Some h.
Proof.
  unfold DMSApp.ensure_admin. destruct us as [|x us]; [now eexists; eexists|].
  destruct (find DMSApp.is_admin (x :: us)) as [row|] eqn:Hfind.
  - destruct (DMSApp.password_hash row) as [h|] eqn:Hh.
    + exists row, h. now rewrite Hfind.
    + rewrite find_is_admin_rehash, Hfind. now eexists; eexists.
  - rewrite (@find_is_admin_app (x :: us) _ Hfind). now eexists; eexists.
Qed.

Lemma ensure_admin_settled (us : list DMSApp.user) (row : DMSApp.user) (h : string) :
  find DMSApp.is_admin us = Some row -> DMSApp.password_hash row = Some h ->
  DMSApp.ensure_admin hash_password us = us.
Proof.
  intros Hfind Hh. unfold DMSApp.ensure_admin.
  destruct us as [|x us]; [discriminate|]. now rewrite Hfind, Hh.
Qed.

Lemma ensure_admin_keeps_others (us : list DMSApp.user) (x : DMSApp.user) :
  In x us -> DMSApp.is_admin x = false -> In x (DMSApp.ensure_admin hash_password us).
Proof.
  intros Hin Hx. unfold DMSApp.ensure_admin. destruct us as [|y us]; [destruct Hin|].
  destruct (find DMSApp.is_admin (y :: us)) as [row|].
  - destruct (DMSApp.password_hash row); [assumption|].
    apply in_map_iff. exists x. now rewrite Hx.
  - apply in_app_iff. now left.
Qed.

(** X9: with fuel for the 62 turns of its longest loop,
    [init_db_and_migrate] ends, and running it again on what it left
    changes nothing. After it the users table has an admin with a
    password hash; a first admin row that already has a hash keeps the
    users table as it is, and no other user's row is dropped or
    altered. A rate table that has rows is left alone and an empty one
    gets the 92 sample slabs; farmers, milk records, advances and
    deductions are never touched. *)
Theorem init_db_and_migrate_settles :
  forall (fuel : nat) (us : list DMSApp.user) (d : db),
    (62 <= fuel)%nat ->
    exists (us' : list DMSApp.user) (d' : db),
      DMSApp.init_db_and_migrate hash_password fuel us d = Some (us', d') /\
      DMSApp.init_db_and_migrate hash_password fuel us' d' = Some (us', d') /\
      (exists row h, find DMSApp.is_admin us' = Some row /\
                     DMSApp.password_hash row = Some h) /\
      (forall row h, find DMSApp.is_admin us = Some row ->
                     DMSApp.password_hash row = Some h -> us' = us) /\
      (forall x, In x us -> DMSApp.is_admin x = false -> In x us') /\
      (rate_table d <> [] -> d' = d) /\
      (rate_table d = [] -> rate_table d' = seeded_rates) /\
      List.length seeded_rates = 92%nat /\
      farmers d' = farmers d /\ milk_records d' = milk_records d /\
      advances d' = advances d /\ advance_deductions d' = advance_deductions d.
Proof.
  intros fuel us d Hfuel.
  pose proof (@sample_rates_enough fuel Hfuel) as Hseed.
  destruct (ensure_admin_has_admin us) as (row & h & Hrow & Hh).
  pose proof (@ensure_admin_settled (DMSApp.ensure_admin hash_password us) row h Hrow Hh) as Hfix.
  unfold DMSApp.init_db_and_migrate. rewrite Hseed.
  destruct (rate_table d) as [|r t] eqn:Ht.
  - eexists; eexists. split; [reflexivity|].
    cbn [rate_table]. change seeded_rates with (hd (mkrate "" None None None) seeded_rates
                                                 :: tl seeded_rates) at 1.
    cbv iota. rewrite Hfix.
    split; [reflexivity|]. split; [now exists row, h|].
    split; [intros row0 h0 H0 Hh0; now apply (@ensure_admin_settled us row0 h0)|].
    split; [intros x; apply ensure_admin_keeps_others|].
    split; [intros Hne; now elim Hne|]. repeat split.
  - eexists; eexists. split; [reflexivity|]. rewrite Ht, Hfix.
    split; [reflexivity|]. split; [now exists row, h|].
    split; [intros row0 h0 H0 Hh0; now apply (@ensure_admin_settled us row0 h0)|].
    split; [intros x; apply ensure_admin_keeps_others|].
    split; [reflexivity|]. split; [discriminate|]. repeat split.
Qed.

End StartUp.

(** X9 on a database file that was just created, with no user yet. *)
Lemma init_db_and_migrate_settles_witness :
  exists (us' : list DMSApp.user) (d' : db),
    DMSApp.init_db_and_migrate tag_hash 62 [] empty_dairy = Some (us', d') /\
    DMSApp.init_db_and_migrate tag_hash 62 us' d' = Some (us', d') /\
    (exists row h, find DMSApp.is_admin us' = Some row /\
                   DMSApp.password_hash row = Some h) /\
    (forall row h, find DMSApp.is_admin [] = Some row ->
                   DMSApp.password_hash row = Some h -> us' = []) /\
    (forall x, In x [] -> DMSApp.is_admin x = false -> In x us') /\
    (rate_table empty_dairy <> [] -> d' = empty_dairy) /\
    (rate_table empty_dairy = [] -> rate_table d' = seeded_rates) /\
    List.length seeded_rates = 92%nat /\
    farmers d' = farmers empty_dairy /\ milk_records d' = milk_records empty_dairy /\
    advances d' = advances empty_dairy /\
    advance_deductions d' = advance_deductions empty_dairy.
Proof.
  apply (@init_db_and_migrate_settles tag_hash 62%nat [] empty_dairy ltac:(lia)).
Defined.

(** ** The sample slabs *)

Lemma seeded_rates_on_the_line : Forall (on_the_line seeded_rates) seeded_rates.
Proof.
  unfold seeded_rates at 2.
  repeat (apply Forall_cons;
          [do 2 eexists;
           split; [reflexivity|]; split; [reflexivity|]; split; [reflexivity|];
           split; [vm_compute; reflexivity|]; split; [reflexivity|];
           split; [vm_compute; reflexivity|]; split; vm_compute; reflexivity|]).
  apply Forall_nil.
Qed.

(** X10: on a rate table that holds the sample slabs, a reading whose
    fat is the fat of a slab gets the rate of that slab, whatever its
    snf, in both applications, and that rate is the one the fallback
    formula gives for the category and fat: populating the table does
    not move the price at any slab. *)
Theorem seeded_slabs_price_as_the_formula :
  forall d : db,
    rate_table d = seeded_rates ->
    forall r : rate_row,
      In r seeded_rates ->
      exists f rate : float,
        rt_fat r = Some f /\ rt_rate r = Some rate /\ rt_snf r = Some 8%float /\
        (forall snf : float,
            DMS.find_rate_for d (rt_category r) (Py.Num f) snf = Py.Ok rate /\
            Ganesh.find_rate_for d (rt_category r) f snf = Py.Ok rate) /\
        DMS.formula_rate (rt_category r) f = rate /\
        Ganesh.formula_rate (rt_category r) f = rate.
Proof.
  intros d Ht r Hr.
  pose proof (proj1 (Forall_forall _ _) seeded_rates_on_the_line r Hr) as Hline.
  destruct Hline as (f & rate & Hf & Hs & Hrate & Hround & Hcat & Hslab & Htwo & Hline).
  exists f, rate. repeat split; try assumption.
  - unfold DMS.find_rate_for. cbn [Py.float_of]. rewrite Hcat, Hround. cbn [Py.bind].
    rewrite Ht, Hslab. cbn [Sqlite.first_by fold_left]. unfold round_rate.
    now rewrite Hrate, Htwo.
  - unfold Ganesh.find_rate_for. rewrite Hround. cbn [Py.bind].
    rewrite Ht, Hslab. cbn [Sqlite.first_by fold_left]. unfold round_rate.
    now rewrite Hrate, Htwo.
Qed.

(** X10 on the fresh dairy: the cow slab at fat 4.5 is priced 37.5 at
    any snf. *)
Lemma seeded_slabs_price_as_the_formula_witness :
  exists f rate : float,
    Some 4.5%float = Some f /\ Some 37.5%float = Some rate /\
    Some 8%float = Some 8%float /\
    (forall snf : float,
        DMS.find_rate_for fresh_dairy "Cow" (Py.Num f) snf = Py.Ok rate /\
        Ganesh.find_rate_for fresh_dairy "Cow" f snf = Py.Ok rate) /\
    DMS.formula_rate "Cow" f = rate /\
    Ganesh.formula_rate "Cow" f = rate.
Proof.
  apply (@seeded_slabs_price_as_the_formula fresh_dairy eq_refl
           (mkrate "Cow" (Some 4.5%float) (Some 8%float) (Some 37.5%float))).
  vm_compute. do 15 right. left. reflexivity.
Defined.

(** ** Recording an advance *)

Section Advances.

Variable fromisoformat : string -> option Datetime.date.

Lemma balance_after_other_advance (d : db) (a : advance) (c : Z) (m : option string) :
  ad_farmer_code a <> c ->
  DMS.get_advance_balance
    (mkdb (farmers d) (milk_records d) (advances d ++ [a]) (rate_table d)
       (advance_deductions d)) c m =
  DMS.get_advance_balance d c m.
Proof.
  intros Hne. unfold DMS.get_advance_balance. cbn [advances advance_deductions].
  rewrite filter_app. cbn [filter].
  destruct (Z.eqb_spec (ad_farmer_code a) c); [contradiction|]. now rewrite app_nil_r.
Qed.

(** X11: [save_adv] records an advance only for a farmer of the table,
    under a date that [normalize_date_input] accepted and with an amount
    that [float] read and that is not below zero; then it appends one
    advance with the normalized date and touches nothing else, so the
    balance of every other farmer stays as it was and the farmer's own
    advances are summed with the new amount last. On every other
    outcome the database is unchanged. *)
Theorem save_adv_records_one_advance :
  forall (d : db) (code_e : DMSApp.entry Z) (date_e reason_e : string)
    (amt_e : Py.numarg) (o : DMSApp.advance_outcome) (d' : db),
    DMSApp.save_adv fromisoformat d code_e date_e reason_e amt_e = (o, d') ->
    (o <> DMSApp.AdvanceRecorded -> d' = d) /\
    (o = DMSApp.AdvanceRecorded ->
     exists (code : Z) (date_db : string) (amount : float),
       code_e = DMSApp.Typed (Some code) /\
       DMS.normalize_date_input fromisoformat (Py.strip date_e) = Py.Ok date_db /\
       amt_e = Py.Num amount /\
       (amount <? 0)%float = false /\
       In code (map farmer_code (farmers d)) /\
       d' = with_advance d
              (mkadvance code date_db (Py.strip reason_e) (Sqlite.bind_real amount)) /\
       (forall (c : Z) (m : option string),
           c <> code -> DMS.get_advance_balance d' c m = DMS.get_advance_balance d c m) /\
       advance_total d' code =
         Sqlite.ifnull0 (Sqlite.sum
           (map ad_amount (filter (fun a => ad_farmer_code a =? code) (advances d)) ++
            [Sqlite.bind_real amount]))).
Proof.
  intros d code_e date_e reason_e amt_e o d'. unfold DMSApp.save_adv.
  destruct code_e as [|[code|]]; try (intros [= <- <-]; split; [reflexivity|discriminate]).
  destruct (DMS.normalize_date_input fromisoformat (Py.strip date_e)) as [date_db|];
    cbn [Py.bind]; [|intros [= <- <-]; split; [reflexivity|discriminate]].
  destruct amt_e as [amount|]; cbn [Py.float_of Py.bind];
    [|intros [= <- <-]; split; [reflexivity|discriminate]].
  destruct (amount <? 0)%float eqn:Hneg;
    [intros [= <- <-]; split; [reflexivity|discriminate]|].
  destruct (existsb (fun f => farmer_code f =? code) (farmers d)) eqn:Hfarmer; cbn [negb];
    [|intros [= <- <-]; split; [reflexivity|discriminate]].
  intros [= <- <-]. split; [intros H; now elim H|]. intros _.
  exists code, date_db, amount.
  split; [reflexivity|]. split; [reflexivity|]. split; [reflexivity|].
  split; [assumption|]. split; [|split; [reflexivity|split]].
  - apply existsb_exists in Hfarmer. destruct Hfarmer as (f & Hf & Hc).
    apply in_map_iff. exists f. split; [now apply Z.eqb_eq|assumption].
  - intros c m Hc. apply balance_after_other_advance. cbn [ad_farmer_code]. congruence.
  - unfold advance_total, with_advance. cbn [advances]. rewrite filter_app.
    cbn [filter ad_farmer_code]. rewrite Z.eqb_refl. now rewrite map_app.
Qed.

End Advances.

(** X11 on the small dairy: 200 advanced to farmer 2 on 7 March 2024. *)
Lemma save_adv_records_one_advance_witness :
  exists (code : Z) (date_db : string) (amount : float),
    DMSApp.Typed (Some 2) = DMSApp.Typed (Some code) /\
    DMS.normalize_date_input no_iso (Py.strip "07/03/2024") = Py.Ok date_db /\
    Py.Num 200%float = Py.Num amount /\
    (amount <? 0)%float = false /\
    In code (map farmer_code (farmers small_dairy)) /\
    with_advance small_dairy (mkadvance 2 "2024-03-07" "feed" (Some 200%float)) =
      with_advance small_dairy
        (mkadvance code date_db (Py.strip " feed ") (Sqlite.bind_real amount)) /\
    (forall (c : Z) (m : option string),
        c <> code ->
        DMS.get_advance_balance
          (with_advance small_dairy (mkadvance 2 "2024-03-07" "feed" (Some 200%float))) c m =
        DMS.get_advance_balance small_dairy c m) /\
    advance_total
      (with_advance small_dairy (mkadvance 2 "2024-03-07" "feed" (Some 200%float))) code =
      Sqlite.ifnull0 (Sqlite.sum
        (map ad_amount (filter (fun a => ad_farmer_code a =? code) (advances small_dairy)) ++
         [Sqlite.bind_real amount])).
Proof.
  apply (proj2 (@save_adv_records_one_advance no_iso small_dairy (DMSApp.Typed (Some 2))
                  "07/03/2024" " feed " (Py.Num 200%float) DMSApp.AdvanceRecorded
                  (with_advance small_dairy
                     (mkadvance 2 "2024-03-07" "feed" (Some 200%float)))
                  ltac:(vm_compute; reflexivity))
           eq_refl).
Defined.

(** ** The quick entry *)

Lemma NoDup_snoc (A : Type) (l : list A) (x : A) :
  NoDup (l ++ [x]) <-> NoDup l /\ ~ In x l.
Proof.
  split.
  - intros H. apply (Permutation_NoDup (Permutation_sym (Permutation_cons_append l x))) in H.
    apply NoDup_cons_iff in H. tauto.
  - intros [H Hx]. apply (Permutation_NoDup (Permutation_cons_append l x)).
    now constructor.
Qed.

Section QuickEntry.

Variable fromisoformat : string -> option Datetime.date.


End QuickEntry.


(** ** The preview of the quick entry *)

Lemma find_rate_for_or_cow (d : db) (c : string) (fat : Py.numarg) (snf : float) :
  DMS.find_rate_for d (DMSApp.or_cow c) fat snf = DMS.find_rate_for d c fat snf.
Proof. destruct c; reflexivity. Qed.

Section Preview.

Variable fromisoformat : string -> option Datetime.date.

(** X13: when [quick_save_record] saves with a rate entry that holds no
    number, the row it appends carries the rate and the amount that
    [quick_calculate] shows for the same entries: the preview and the
    saved record agree, also for a farmer of both kinds whose category
    box is empty, which the preview prices as it stands and the save
    stores as Cow. *)
Theorem quick_calculate_previews_quick_save_record :
  forall (now : Datetime.datetime) (d : db) (e_code : DMSApp.entry Z)
    (entry_category_widget : option string) (e_date e_shift : string)
    (e_litres e_fat e_snf e_rate : DMSApp.entry float) (warned : bool) (d' : db),
    (forall r : float, e_rate <> DMSApp.Typed (Some r)) ->
    DMSApp.quick_save_record fromisoformat now d e_code entry_category_widget e_date
      e_shift (typed_number e_litres) (typed_number e_fat) e_snf e_rate =
      Py.Ok (DMSApp.QSaved warned, d') ->
    exists (rate amount : float) (row : milk_record),
      DMSApp.quick_calculate d e_code entry_category_widget e_litres e_fat e_snf =
        Py.Ok (Some (rate, amount)) /\
      milk_records d' = milk_records d ++ [row] /\
      mr_rate row = Sqlite.bind_real rate /\
      mr_amount row = Sqlite.bind_real amount.
Proof.
  intros now d e_code w e_date e_shift e_litres e_fat e_snf e_rate warned d' Hrate.
  unfold DMSApp.quick_save_record, DMSApp.quick_calculate.
  destruct e_code as [|[code|]]; try discriminate.
  destruct (find (fun f => farmer_code f =? code) (farmers d)) as [farmer|];
    [|discriminate].
  set (cat := if DMSApp.is_empty (category farmer) then "Cow"%string
              else if String.eqb (category farmer) "Both"
                   then match w with
                        | Some shown => shown
                        | None => "Cow"%string
                        end
                   else category farmer).
  assert (Hcat : forall c : string,
             (if String.eqb (DMSApp.or_cow (category farmer)) "Both"
              then option_map DMSApp.or_cow w
              else Some (DMSApp.or_cow (category farmer))) = Some c ->
             forall (fat : Py.numarg) (snf : float),
               DMS.find_rate_for d c fat snf = DMS.find_rate_for d cat fat snf).
  { intros c Hc fat snf. subst cat. destruct (category farmer) as [|a t] eqn:Hk.
    - cbn in Hc. injection Hc as <-. reflexivity.
    - cbn [DMSApp.or_cow DMSApp.is_empty] in *.
      destruct (String.eqb (String a t) "Both").
      + destruct w as [shown|]; [|discriminate]. cbn [option_map] in Hc.
        injection Hc as <-. apply find_rate_for_or_cow.
      + injection Hc as <-. reflexivity. }
  destruct (if String.eqb (DMSApp.or_cow (category farmer)) "Both"
            then option_map DMSApp.or_cow w
            else Some (DMSApp.or_cow (category farmer))) as [c|]; [|discriminate].
  specialize (Hcat c eq_refl).
  destruct (DMS.normalize_date_input fromisoformat (Py.strip e_date)) as [date_db|];
    [|discriminate].
  unfold DMSApp.quick_numbers.
  destruct e_litres as [|[litres|]]; cbn [typed_number Py.float_of Py.bind];
    try discriminate.
  destruct e_fat as [|[fat|]]; cbn [typed_number Py.float_of Py.bind DMSApp.entry_or];
    try discriminate.
  assert (Hsaved : forall snf : float,
             (if (litres <? 0)%float || (DMSApp.round1 fat <? 0)%float || (snf <? 0)%float
              then Py.Ok (DMSApp.QNegative, d)
              else
                rate <- match e_rate with
                        | DMSApp.Typed (Some r) => Py.Ok r
                        | _ => DMS.find_rate_for d c (Py.Num (DMSApp.round1 fat)) snf
                        end ;;
                Py.Ok (DMSApp.QSaved (DMSApp.fat_warning c (DMSApp.round1 fat)),
                       set_milk_records d
                         (milk_records d ++
                          [DMS.new_entry code date_db
                             match Py.strip e_shift with
                             | EmptyString => DMS.get_shift_for_time now None
                             | String a s0 => String a s0
                             end litres (DMSApp.round1 fat) snf rate
                             (Py.round2 (litres * rate)%float) c]))) =
               Py.Ok (DMSApp.QSaved warned, d') ->
             exists (rate amount : float) (row : milk_record),
               (rate0 <- DMS.find_rate_for d cat (Py.Num (DMSApp.round1 fat)) snf ;;
                Py.Ok (Some (rate0, Py.round2 (litres * rate0)%float))) =
                 Py.Ok (Some (rate, amount)) /\
               milk_records d' = milk_records d ++ [row] /\
               mr_rate row = Sqlite.bind_real rate /\
               mr_amount row = Sqlite.bind_real amount).
  { intros snf.
    destruct ((litres <? 0)%float || (DMSApp.round1 fat <? 0)%float || (snf <? 0)%float);
      [discriminate|].
    assert (Hr : match e_rate with
                 | DMSApp.Typed (Some r) => Py.Ok r
                 | _ => DMS.find_rate_for d c (Py.Num (DMSApp.round1 fat)) snf
                 end = DMS.find_rate_for d cat (Py.Num (DMSApp.round1 fat)) snf).
    { destruct e_rate as [|[r|]]; [apply Hcat|now elim (Hrate r)|apply Hcat]. }
    rewrite Hr.
    destruct (DMS.find_rate_for d cat (Py.Num (DMSApp.round1 fat)) snf) as [rate|];
      cbn [Py.bind]; [|discriminate].
    intros [= _ <-]. eexists; eexists; eexists.
    split; [reflexivity|]. split; [reflexivity|]. split; reflexivity. }
  destruct e_snf as [|[snf|]]; cbn [Py.bind DMSApp.entry_or]; try discriminate;
    apply Hsaved.
Qed.

End Preview.

(** X13 on the small dairy: 8 litres at fat 4.0 for farmer 1, nothing
    typed for snf and rate. *)
Lemma quick_calculate_previews_quick_save_record_witness :
  exists (rate amount : float) (row : milk_record),
    DMSApp.quick_calculate small_dairy (DMSApp.Typed (Some 1)) None
      (DMSApp.Typed (Some 8%float)) (DMSApp.Typed (Some 4%float)) DMSApp.Blank =
      Py.Ok (Some (rate, amount)) /\
    milk_records small_dairy_twice = milk_records small_dairy ++ [row] /\
    mr_rate row = Sqlite.bind_real rate /\
    mr_amount row = Sqlite.bind_real amount.
Proof.
  apply (@quick_calculate_previews_quick_save_record no_iso four_am small_dairy
           (DMSApp.Typed (Some 1)) None "05/01/2024" "Morning"
           (DMSApp.Typed (Some 8%float)) (DMSApp.Typed (Some 4%float))
           DMSApp.Blank DMSApp.Blank false small_dairy_twice
           ltac:(discriminate) ltac:(vm_compute; reflexivity)).
Defined.
